(** * Resume leaderboard: ranking, summary and per-candidate processing

    A shallow embedding of [Backend/Ranking.py] and of the leaderboard
    pipeline of [Backend/app.py], with the properties of the leaderboard
    specification proved about it.

    Modelling conventions.
    - A Python [dict] with string keys is a [gmap string value].
    - Candidate dicts and candidate lists are objects: they live in a
      [store] and are handled through references, so that in-place
      mutation ([candidate["rank"] = rank]) and list identity are visible.
    - A Python [float] that is a number (not NaN, not infinite) is the
      rational it denotes.  Negation and comparison of such floats are
      exact, so the sort key is modelled exactly.  Integers are exact.
    - Arithmetic that yields a float ([+], [sum], [/], [round]) is the
      interpreter's: it rounds to the nearest double at each step, [sum]
      follows the interpreter's summation algorithm, and an integer beyond
      the range of floats raises [OverflowError].  These operations are the
      fields of [float_arithmetic], about which nothing is assumed; a
      result that is infinite or NaN is, like such a score, outside the
      values of the model.
    - A Python [str] is a [string]; the case mappings ([lower], [title]) and
      the white space of [strip] are those of ASCII text.
    - Exceptions are values of [exn]; only exceptions deriving from
      [Exception] are modelled.
    - The collaborators imported from [Backend.Extraction] and
      [Backend.llm] are outside the repository part under study: a call to
      one of them is a node of a program tree, answered by an arbitrary
      (possibly stateful, possibly failing) environment. *)

From Stdlib Require Import QArith Lqa Ascii String.
From stdpp Require Import gmap strings list fin_maps sorting.

Set Warnings "-register-all".
Local Open Scope Z_scope.

(** ** Python values, exceptions and built-ins *)

Module Py.

Inductive value : Type :=
| VNone
| VInt (z : Z)
| VFloat (q : Q)
| VStr (s : string)
| VList (xs : list value)
| VDict (d : gmap string value).

Abbreviation dict := (gmap string value).

Record exn : Type := Exn { exn_type : string; exn_str : string }.

Inductive result (A : Type) : Type :=
| Ok (a : A)
| Raise (e : exn).
Arguments Ok {A} a.
Arguments Raise {A} e.

#[global] Instance result_ret : MRet result := fun A a => Ok a.
#[global] Instance result_bind : MBind result := fun A B f m =>
  match m with
  | Ok a => f a
  | Raise e => Raise e
  end.

Definition type_name (v : value) : string :=
  match v with
  | VNone => "NoneType"
  | VInt _ => "int"
  | VFloat _ => "float"
  | VStr _ => "str"
  | VList _ => "list"
  | VDict _ => "dict"
  end.

Definition TypeError (msg : string) : exn := Exn "TypeError" msg.
Definition AttributeError (v : value) (attr : string) : exn :=
  Exn "AttributeError"
      ("'" +:+ type_name v +:+ "' object has no attribute '" +:+ attr +:+ "'").
Definition ValueError (msg : string) : exn := Exn "ValueError" msg.
(** [str(KeyError(k))] is the repr of the key. *)
Definition KeyError (k : string) : exn := Exn "KeyError" ("'" +:+ k +:+ "'").
Definition ZeroDivisionError : exn := Exn "ZeroDivisionError" "division by zero".

(** [bool(v)] *)
Definition truthy (v : value) : bool :=
  match v with
  | VNone => false
  | VInt z => negb (z =? 0)
  | VFloat q => negb (Qeq_bool q 0)
  | VStr s => negb (String.eqb s "")
  | VList xs => match xs with [] => false | _ :: _ => true end
  | VDict d => negb (bool_decide (dom d = ∅))
  end.

(** [bool(xs)] on a list *)
Definition truthy_list {A} (xs : list A) : bool :=
  match xs with [] => false | _ => true end.

(** [xs[0]] *)
Definition index0 {A} (xs : list A) : result A :=
  match xs with
  | x :: _ => Ok x
  | [] => Raise (Exn "IndexError" "list index out of range")
  end.

(** [d.get(k, default)] *)
Definition get (d : dict) (k : string) (default : value) : value :=
  match d !! k with
  | Some v => v
  | None => default
  end.

(** [d.get(k)] *)
Definition get_or_None (d : dict) (k : string) : value := get d k VNone.

(** [v.get(k, default)] on an arbitrary value *)
Definition get_attr (v : value) (k : string) (default : value) : result value :=
  match v with
  | VDict d => Ok (get d k default)
  | _ => Raise (AttributeError v "get")
  end.

(** [v[k]] with a string key *)
Definition subscript (v : value) (k : string) : result value :=
  match v with
  | VDict d => match d !! k with
               | Some x => Ok x
               | None => Raise (KeyError k)
               end
  | _ => Raise (TypeError ("'" +:+ type_name v +:+ "' object is not subscriptable"))
  end.

(** The rational a number stands for. *)
Definition num (v : value) : option Q :=
  match v with
  | VInt z => Some (inject_Z z)
  | VFloat q => Some q
  | _ => None
  end.

(** [-v]; the result is only ever compared, so the rational it stands for
    is returned. *)
Definition neg (v : value) : result Q :=
  match v with
  | VInt z => Ok (inject_Z (- z))
  | VFloat q => Ok (- q)%Q
  | _ => Raise (TypeError ("bad operand type for unary -: '" +:+ type_name v +:+ "'"))
  end.

(** *** Arithmetic

    The operations of the interpreter that yield a float.  Each returns the
    float, as the rational it denotes, or raises (an integer operand beyond
    the range of floats raises [OverflowError]).  They round, so none of
    them is the operation on rationals of the same name, and [float_sum]
    need not be a chain of [float_add]. *)
Class float_arithmetic : Type := FloatArithmetic {
  (** [a + b] for numbers [a] and [b] of which one at least is a float *)
  float_add : value -> value -> result Q;
  (** [sum(xs)] for a list that does not hold integers only *)
  float_sum : list value -> result Q;
  (** [a / n] for a number [a] and an integer [n] other than 0 *)
  float_truediv : value -> Z -> result Q;
  (** [round(x, ndigits)] for a float [x] and [0 <= ndigits] *)
  float_round : Q -> nat -> Q
}.

(** [a + b] *)
Definition add {arith : float_arithmetic} (a b : value) : result value :=
  match a, b with
  | VInt x, VInt y => Ok (VInt (x + y))
  | VInt _, VFloat _ | VFloat _, VInt _ | VFloat _, VFloat _ =>
      q ← float_add a b; mret (VFloat q)
  | VStr x, VStr y => Ok (VStr (x +:+ y))
  | VList xs, VList ys => Ok (VList (xs ++ ys))
  | _, _ => Raise (TypeError ("unsupported operand type(s) for +: '" +:+ type_name a
                              +:+ "' and '" +:+ type_name b +:+ "'"))
  end.

(** The integers of a list that holds integers only. *)
Fixpoint integers (xs : list value) : option (list Z) :=
  match xs with
  | [] => Some []
  | VInt z :: xs' => zs ← integers xs'; Some (z :: zs)
  | _ :: _ => None
  end.

(** [sum(xs)]: exact on integers, else what the interpreter's summation
    gives (or raises, also for an item that is no number). *)
Definition sum {arith : float_arithmetic} (xs : list value) : result value :=
  match integers xs with
  | Some zs => Ok (VInt (foldl Z.add 0 zs))
  | None => q ← float_sum xs; mret (VFloat q)
  end.

(** [a / n] for an integer [n] (true division: the result is a float) *)
Definition truediv {arith : float_arithmetic} (a : value) (n : Z) : result value :=
  match a with
  | VInt _ =>
      if n =? 0 then Raise ZeroDivisionError
      else q ← float_truediv a n; mret (VFloat q)
  | VFloat _ =>
      if n =? 0 then Raise (Exn "ZeroDivisionError" "float division by zero")
      else q ← float_truediv a n; mret (VFloat q)
  | _ => Raise (TypeError ("unsupported operand type(s) for /: '" +:+ type_name a
                           +:+ "' and 'int'"))
  end.

(** [round(v, ndigits)] for [0 <= ndigits]: an integer is returned as it is. *)
Definition round {arith : float_arithmetic} (v : value) (ndigits : nat) : result value :=
  match v with
  | VInt z => Ok (VInt z)
  | VFloat q => Ok (VFloat (float_round q ndigits))
  | _ => Raise (TypeError ("type " +:+ type_name v +:+ " doesn't define __round__ method"))
  end.

(** *** Strings *)

Definition is_upper (c : ascii) : bool :=
  let n := nat_of_ascii c in (65 <=? n)%nat && (n <=? 90)%nat.
Definition is_lower (c : ascii) : bool :=
  let n := nat_of_ascii c in (97 <=? n)%nat && (n <=? 122)%nat.
Definition is_cased (c : ascii) : bool := is_upper c || is_lower c.
(** White space removed by [str.strip()]: TAB..CR, FS..US and the space. *)
Definition is_space (c : ascii) : bool :=
  let n := nat_of_ascii c in
  ((9 <=? n)%nat && (n <=? 13)%nat) || ((28 <=? n)%nat && (n <=? 32)%nat).

Definition lower_char (c : ascii) : ascii :=
  if is_upper c then ascii_of_nat (nat_of_ascii c + 32) else c.
Definition upper_char (c : ascii) : ascii :=
  if is_lower c then ascii_of_nat (nat_of_ascii c - 32) else c.

Fixpoint map_string (f : ascii -> ascii) (s : string) : string :=
  match s with
  | EmptyString => EmptyString
  | String c s' => String (f c) (map_string f s')
  end.

(** [s.lower()] *)
Definition lower (s : string) : string := map_string lower_char s.

(** [v.lower()] on an arbitrary value *)
Definition lower_attr (v : value) : result string :=
  match v with
  | VStr s => Ok (lower s)
  | _ => Raise (AttributeError v "lower")
  end.

(** [s.replace(old, new)] for one-character [old] and [new] *)
Definition replace_char (old new : ascii) (s : string) : string :=
  map_string (fun c => if Ascii.eqb c old then new else c) s.

(** [s.title()]: a cased character is upper-cased at the start of a word
    and lower-cased after another cased character. *)
Fixpoint title_from (previous_is_cased : bool) (s : string) : string :=
  match s with
  | EmptyString => EmptyString
  | String c s' =>
      String (if previous_is_cased then lower_char c else upper_char c)
             (title_from (is_cased c) s')
  end.
Definition title (s : string) : string := title_from false s.

Fixpoint lstrip (s : string) : string :=
  match s with
  | EmptyString => EmptyString
  | String c s' => if is_space c then lstrip s' else s
  end.
Fixpoint rstrip (s : string) : string :=
  match s with
  | EmptyString => EmptyString
  | String c s' =>
      match rstrip s' with
      | EmptyString => if is_space c then EmptyString else String c EmptyString
      | r => String c r
      end
  end.
(** [s.strip()] *)
Definition strip (s : string) : string := rstrip (lstrip s).

(** [s.rfind(c)]: the last index of [c] in [s], or -1. *)
Fixpoint rfind_from (c : ascii) (s : string) (i : Z) (found : Z) : Z :=
  match s with
  | EmptyString => found
  | String a s' => rfind_from c s' (i + 1) (if Ascii.eqb a c then i else found)
  end.
Definition rfind (c : ascii) (s : string) : Z := rfind_from c s 0 (-1).

(** [s[:i]] and [s[i:]] for [0 <= i] *)
Definition slice_to (s : string) (i : Z) : string :=
  String.substring 0 (Z.to_nat i) s.
Definition slice_from (s : string) (i : Z) : string :=
  String.substring (Z.to_nat i) (String.length s - Z.to_nat i) s.

(** [posixpath.splitext]: the extension starts at the last dot of the last
    path component, leading dots of that component not counting. *)
Fixpoint splitext_scan (p : string) (filenameIndex : Z) (steps : nat) : bool :=
  match steps with
  | O => false
  | S steps' =>
      match String.get (Z.to_nat filenameIndex) p with
      | Some c => if Ascii.eqb c "."%char then splitext_scan p (filenameIndex + 1) steps'
                  else true
      | None => true
      end
  end.
Definition splitext (p : string) : string * string :=
  let sepIndex := rfind "/"%char p in
  let dotIndex := rfind "."%char p in
  if (sepIndex <? dotIndex)
     && splitext_scan p (sepIndex + 1) (Z.to_nat (dotIndex - (sepIndex + 1)))
  then (slice_to p dotIndex, slice_from p dotIndex)
  else (p, EmptyString).

(** *** Comparison of sort keys

    [sorted] compares the key tuples [(number, str)] with [<]: the first
    components that differ under [==] decide. *)
Definition Qltb (x y : Q) : bool :=
  match (x ?= y)%Q with Lt => true | _ => false end.

Definition tuple_lt (a b : Q * string) : bool :=
  if negb (Qeq_bool a.1 b.1) then Qltb a.1 b.1
  else if negb (String.eqb a.2 b.2) then String.ltb a.2 b.2
  else false.

(** [sorted(xs, key=...)] on the list of (key, item) pairs: a stable sort
    that only asks [<] of the keys.  Each item is inserted, from the right,
    in front of the first item that is not smaller. *)
Section Sorted.
Context {K A : Type} (lt : K -> K -> bool).

Fixpoint insert_by (x : K * A) (l : list (K * A)) : list (K * A) :=
  match l with
  | [] => [x]
  | y :: l' => if lt y.1 x.1 then y :: insert_by x l' else x :: y :: l'
  end.

Definition sorted (l : list (K * A)) : list A :=
  (foldr insert_by [] l).*2.

End Sorted.

End Py.

(** ** The object store *)

Module Heap.
Import Py.

Definition ref := nat.

(** Candidate dicts and lists of candidates, each under its reference. *)
Record store : Type := Store {
  dicts : gmap ref (gmap string value);
  lists : gmap ref (list ref)
}.

(** A computation reads and updates the store and returns or raises; the
    store reached is kept in both cases. *)
Definition M (A : Type) : Type := store -> result A * store.

#[global] Instance M_ret : MRet M := fun A a σ => (Ok a, σ).
#[global] Instance M_bind : MBind M := fun A B f m σ =>
  match m σ with
  | (Ok a, σ') => f a σ'
  | (Raise e, σ') => (Raise e, σ')
  end.

Definition lift {A} (r : result A) : M A := fun σ => (r, σ).

(** A reference outside the store has no counterpart in Python, where a
    reference keeps its object alive; the model stops on it. *)
Definition dangling : exn := Exn "SystemError" "dangling reference".

Definition load_dict (c : ref) : M dict := fun σ =>
  match dicts σ !! c with
  | Some d => (Ok d, σ)
  | None => (Raise dangling, σ)
  end.

Definition load_list (r : ref) : M (list ref) := fun σ =>
  match lists σ !! r with
  | Some xs => (Ok xs, σ)
  | None => (Raise dangling, σ)
  end.

(** [c[k] = v] *)
Definition set_item (c : ref) (k : string) (v : value) : M unit := fun σ =>
  match dicts σ !! c with
  | Some d => (Ok tt, Store (<[c := <[k := v]> d]> (dicts σ)) (lists σ))
  | None => (Raise dangling, σ)
  end.

(** A new list object holding [xs]. *)
Definition new_list (xs : list ref) : M ref := fun σ =>
  let r := fresh (dom (lists σ)) in
  (Ok r, Store (dicts σ) (<[r := xs]> (lists σ))).

(** A new dict object holding [d]. *)
Definition new_dict (d : dict) : M ref := fun σ =>
  let c := fresh (dom (dicts σ)) in
  (Ok c, Store (<[c := d]> (dicts σ)) (lists σ)).

(** [xs.append(c)] *)
Definition append (r : ref) (c : ref) : M unit := fun σ =>
  match lists σ !! r with
  | Some xs => (Ok tt, Store (dicts σ) (<[r := xs ++ [c]]> (lists σ)))
  | None => (Raise dangling, σ)
  end.

(** [enumerate(xs, start)] *)
Fixpoint enumerate {A} (xs : list A) (start : Z) : list (Z * A) :=
  match xs with
  | [] => []
  | x :: xs' => (start, x) :: enumerate xs' (start + 1)
  end.

(** [for x in xs: body(x)] *)
Fixpoint for_each {A} (body : A -> M unit) (xs : list A) : M unit :=
  match xs with
  | [] => mret tt
  | x :: xs' => body x ≫= fun _ => for_each body xs'
  end.

Definition empty : store := Store ∅ ∅.

End Heap.

(** ** Backend/Ranking.py *)

Module Ranking.
Import Py Heap.

(** [lambda c: (-c.get("score", 0.0), c.get("name", "").lower())] *)
Definition sort_key (c : dict) : result (Q * string) :=
  score ← neg (get c "score" (VFloat 0));
  name ← lower_attr (get c "name" (VStr ""));
  mret (score, name).

Definition get_domain_leaderboard (candidates : ref) : M ref :=
  cs ← load_list candidates;
  keyed ← mapM (fun c => d ← load_dict c; k ← lift (sort_key d); mret (k, c)) cs;
  ranked ← new_list (sorted tuple_lt keyed);
  items ← load_list ranked;
  for_each (fun '(rank, candidate) => set_item candidate "rank" (VInt rank))
           (enumerate items 1);;
  mret ranked.

Definition zero_summary : dict :=
  {[ "total_candidates" := VInt 0;
     "top_candidate" := VNone;
     "average_score" := VFloat 0;
     "score_distribution" :=
       VDict {[ "strong" := VInt 0; "medium" := VInt 0; "weak" := VInt 0 ]} ]}.

(** [dist[k] += v] *)
Definition add_item {arith : float_arithmetic} (dist : dict) (k : string) (v : value)
  : result dict :=
  old ← subscript (VDict dist) k;
  new ← add old v;
  mret (<[k := new]> dist).

(** The body of the loop over the candidates, on the dict of one. *)
Definition count_tiers {arith : float_arithmetic} (dist : dict) (c : dict) : result dict :=
  let m := get c "metrics" (VDict ∅) in
  strong ← get_attr m "total_strong_skills" (VInt 0);
  dist ← add_item dist "strong" strong;
  medium ← get_attr m "total_medium_skills" (VInt 0);
  dist ← add_item dist "medium" medium;
  weak ← get_attr m "total_weak_skills" (VInt 0);
  add_item dist "weak" weak.

Definition build_leaderboard_summary {arith : float_arithmetic} (ranked_candidates : ref)
  : M value :=
  cs ← load_list ranked_candidates;
  if negb (truthy_list cs) then mret (VDict zero_summary)
  else
    ds ← mapM load_dict cs;
    let scores := (fun c => get c "score" (VFloat 0)) <$> ds in
    total ← lift (sum scores);
    mean ← lift (truediv total (Z.of_nat (length scores)));
    avg ← lift (round mean 4);
    dist ← lift (foldl (fun acc c => dist ← acc; count_tiers dist c)
                       (Ok {[ "strong" := VInt 0; "medium" := VInt 0; "weak" := VInt 0 ]})
                       ds);
    first ← lift (index0 ds);
    mret (VDict {[ "total_candidates" := VInt (Z.of_nat (length cs));
                   "top_candidate" := get_or_None first "name";
                   "average_score" := avg;
                   "score_distribution" := VDict dist ]}).

End Ranking.

(** ** Backend/app.py *)

Module App.
Import Py Heap Ranking.

(** An uploaded file as the web framework hands it over: its client-side
    file name, if any, and its content. *)
Record file_storage : Type := FileStorage {
  filename : option string;
  stream : string
}.

(** The calls to the collaborators.  The module-level constants handed to
    them (the skill dictionary, the API key) belong to the environment. *)
Inductive call : Type :=
| pdf_extract (file : file_storage)
| list_to_json (raw_text : value)
| extract_skill_from_resume (structured : value)
| generate_analysis_metrics (skills : value)
| calculate_skill_strength (metrics : value)
| get_recruiter_note (candidate_name domain : string) (skills score : value).

(** A program returns, raises, or calls a collaborator and goes on with
    what the collaborator returned or raised. *)
Inductive prog (A : Type) : Type :=
| Ret (a : A)
| Throw (e : exn)
| Call (c : call) (k : result value -> prog A).
Arguments Ret {A} a.
Arguments Throw {A} e.
Arguments Call {A} c k.

Fixpoint bind {A B} (m : prog A) (f : A -> prog B) : prog B :=
  match m with
  | Ret a => f a
  | Throw e => Throw e
  | Call c k => Call c (fun r => bind (k r) f)
  end.

#[global] Instance prog_ret : MRet prog := fun A a => Ret a.
#[global] Instance prog_bind : MBind prog := fun A B f m => bind m f.

(** A call whose exception is not handled on the spot. *)
Definition invoke (c : call) : prog value :=
  Call c (fun r => match r with Ok v => Ret v | Raise e => Throw e end).

Definition of_result {A} (r : result A) : prog A :=
  match r with Ok a => Ret a | Raise e => Throw e end.

(** [try: body except Exception as exc: handler(exc)] *)
Fixpoint try_except {A} (body : prog A) (handler : exn -> prog A) : prog A :=
  match body with
  | Ret a => Ret a
  | Throw e => handler e
  | Call c k => Call c (fun r => try_except (k r) handler)
  end.

(** The collaborators: any answer to each call, depending on and changing
    a state of their own. *)
Definition env (S : Type) : Type := call -> S -> result value * S.

Fixpoint run {S A} (E : env S) (p : prog A) (s : S) : result A * S :=
  match p with
  | Ret a => (Ok a, s)
  | Throw e => (Raise e, s)
  | Call c k => let '(r, s') := E c s in run E (k r) s'
  end.

(** The [try] block of [_process_single_resume]. *)
Definition process_steps (file : file_storage) (candidate_name domain : string)
  : prog dict :=
  raw_text ← invoke (pdf_extract file);
  if negb (truthy raw_text)
  then Throw (ValueError "Empty PDF — could not extract text.")
  else
    structured ← invoke (list_to_json raw_text);
    skills ← invoke (extract_skill_from_resume structured);
    metrics ← invoke (generate_analysis_metrics skills);
    scoring ← invoke (calculate_skill_strength metrics);
    score ← of_result (subscript scoring "skill_strength_score");
    note ← invoke (get_recruiter_note candidate_name domain skills score);
    weighted_sum ← of_result (subscript scoring "weighted_sum");
    net_skills ← of_result (subscript scoring "net_skills");
    mret ({[ "name" := VStr candidate_name;
             "score" := score;
             "weighted_sum" := weighted_sum;
             "net_skills" := net_skills;
             "metrics" := metrics;
             "skills" := skills;
             "recruiter_note" := note ]} : dict).

(** The record built by the [except] block. *)
Definition failure_record (candidate_name : string) (exc : exn) : dict :=
  {[ "name" := VStr candidate_name;
     "score" := VFloat 0;
     "weighted_sum" := VFloat 0;
     "net_skills" := VInt 0;
     "metrics" := VDict ∅;
     "skills" := VDict ∅;
     "recruiter_note" := VStr ("Processing failed: " +:+ exn_str exc);
     "error" := VStr (exn_str exc) ]}.

Definition _process_single_resume (file : file_storage)
    (candidate_name domain : string) : prog dict :=
  try_except (process_steps file candidate_name domain)
             (fun exc => Ret (failure_record candidate_name exc)).

Record request : Type := Request {
  files : list file_storage;
  names : list string;
  domain_field : option string
}.

Record response : Type := Response { status : Z; body : value }.

(** [bool(f)] of an uploaded file is [bool(f.filename)]. *)
Definition file_truthy (f : file_storage) : bool :=
  match filename f with
  | Some s => truthy (VStr s)
  | None => false
  end.

(** [f.filename != ""] *)
Definition filename_not_empty (f : file_storage) : bool :=
  match filename f with
  | Some s => negb (String.eqb s "")
  | None => true
  end.

(** The name of the candidate of the [i]-th valid file: the provided one
    when there is one that is not blank, else one made of the file name. *)
Definition candidate_name_of (names : list string) (i : nat) (file : file_storage)
  : result string :=
  let fallback :=
    match filename file with
    | Some fname =>
        let stem := (splitext fname).1 in
        Ok (title (replace_char "-" " " (replace_char "_" " " stem)))
    | None =>
        Raise (TypeError "expected str, bytes or os.PathLike object, not NoneType")
    end in
  match names !! i with
  | Some provided => if truthy (VStr (strip provided)) then Ok (strip provided)
                     else fallback
  | None => fallback
  end.

(** The loop over [enumerate(valid_files)], from index [i] on. *)
Fixpoint process_files (names : list string) (domain : string) (i : nat)
    (valid_files : list file_storage) : prog (list dict) :=
  match valid_files with
  | [] => mret []
  | file :: rest =>
      name ← of_result (candidate_name_of names i file);
      record ← _process_single_resume file name domain;
      records ← process_files names domain (S i) rest;
      mret (record :: records)
  end.

(** Ranking and summary of the records of a request: the records and their
    list are objects of the request's own. *)
Definition rank_and_summarise {arith : float_arithmetic} (records : list dict)
  : result (list dict * value) :=
  ((cs ← mapM new_dict records;
    candidates ← new_list cs;
    ranked ← get_domain_leaderboard candidates;
    summary ← build_leaderboard_summary ranked;
    items ← load_list ranked;
    ds ← mapM load_dict items;
    mret (ds, summary)) Heap.empty).1.

(** [[f for f in files if f and f.filename != ""]] *)
Definition valid_files_of (files : list file_storage) : list file_storage :=
  filter (fun f => file_truthy f && filename_not_empty f = true) files.

Definition leaderboard {arith : float_arithmetic} (req : request) : prog response :=
  let domain := strip (default "Software Engineering" (domain_field req)) in
  let valid_files := valid_files_of (files req) in
  if negb (truthy_list valid_files)
  then Ret (Response 400 (VDict {[ "error" := VStr "No PDF files provided." ]}))
  else
    candidates ← process_files (names req) domain 0 valid_files;
    '(ranked, summary) ← of_result (rank_and_summarise candidates);
    mret (Response 200
            (VDict {[ "status" := VStr "success";
                      "domain" := VStr domain;
                      "total_candidates" := VInt (Z.of_nat (length ranked));
                      "summary" := summary;
                      "leaderboard" := VList (VDict <$> ranked) ]})).

End App.

(** ** What the specification observes *)

Module Spec.
Import Py Heap Ranking App.

(** The value under key [k] of the dict object [c], if both exist. *)
Definition field (σ : store) (c : ref) (k : string) : option value :=
  dicts σ !! c ≫= fun d => d !! k.

(** The score a record is ranked by: its [score], 0.0 when it has none. *)
Definition score_of (σ : store) (c : ref) : Q :=
  default 0%Q (num (default (VFloat 0) (field σ c "score"))).

(** The name a record is ranked by: its [name] in lower case, the empty
    string when it has none. *)
Definition name_key (σ : store) (c : ref) : string :=
  match default (VStr "") (field σ c "name") with
  | VStr s => lower s
  | _ => ""
  end.

Definition rank_of (σ : store) (c : ref) : option value := field σ c "rank".

(** The key a record is sorted by, and the order of the references of [cs]
    it gives. *)
Definition key_of (σ : store) (c : ref) : Q * string :=
  ((- score_of σ c)%Q, name_key σ c).

Definition ranking (σ : store) (cs : list ref) : list ref :=
  sorted tuple_lt ((fun c => (key_of σ c, c)) <$> cs).

(** A candidate dict as the module's docstring has it, as far as ranking
    reads it: the score, if any, is a number and the name, if any, a string. *)
Definition sortable (d : dict) : Prop :=
  (exists q, num (get d "score" (VFloat 0)) = Some q) /\
  (exists s, get d "name" (VStr "") = VStr s).

(** Every reference of [cs] is to a candidate dict of the store. *)
Definition candidates_ok (σ : store) (cs : list ref) : Prop :=
  Forall (fun c => exists d, dicts σ !! c = Some d /\ sortable d) cs.

(** [a <= b] on sort keys, in terms of the components. *)
Definition key_le (a b : Q * string) : Prop :=
  (a.1 < b.1)%Q \/ (a.1 == b.1 /\ String.leb a.2 b.2 = true).

(** [x] may stand before [y] in a sorted list: [y]'s key is not smaller. *)
Definition before {K A} (lt : K -> K -> bool) (x y : K * A) : Prop :=
  lt y.1 x.1 = false.

(** Keys of which neither is smaller than the other. *)
Definition same_key {K} (lt : K -> K -> bool) (a b : K) : bool :=
  negb (lt a b) && negb (lt b a).

(** The dicts after [c["rank"] = rank] for each [(rank, c)] of [items]. *)
Definition with_ranks (m : gmap ref (gmap string value)) (items : list (Z * ref))
  : gmap ref (gmap string value) :=
  foldl (fun m '(rank, c) => alter (insert "rank" (VInt rank)) c m) m items.

(** The count of one tier in the metrics of a record, 0 when the record has
    no metrics or the metrics no such key. *)
Definition tier_count (σ : store) (tier : string) (c : ref) : Z :=
  match default (VDict ∅) (field σ c "metrics") with
  | VDict m => match default (VInt 0) (m !! tier) with
               | VInt n => n
               | _ => 0
               end
  | _ => 0
  end.

Definition tier_total (σ : store) (tier : string) (cs : list ref) : Z :=
  foldr Z.add 0 (tier_count σ tier <$> cs).

(** The distribution with the given counts. *)
Definition tiers (strong medium weak : Z) : dict :=
  {[ "strong" := VInt strong; "medium" := VInt medium; "weak" := VInt weak ]}.

(** The arithmetic mean of a list of numbers. *)
Definition Qsum (qs : list Q) : Q := foldr Qplus 0%Q qs.
Definition mean (qs : list Q) : Q := (Qsum qs / inject_Z (Z.of_nat (length qs)))%Q.

(** Nearest integer, ties to the even one. *)
Definition round_half_even (q : Q) : Z :=
  let n := Qnum q in
  let d := Zpos (Qden q) in
  let f := n / d in
  match 2 * (n mod d) ?= d with
  | Lt => f
  | Gt => f + 1
  | Eq => if Z.even f then f else f + 1
  end.


(** The scores the summary reads off the records of [cs], 0.0 for a record
    without one. *)
Definition scores_of (σ : store) (cs : list ref) : list value :=
  (fun c => default (VFloat 0) (field σ c "score")) <$> cs.

(** The average score of a list of scores as the interpreter computes it:
    [round(sum(scores) / len(scores), 4)]. *)
Definition average {arith : float_arithmetic} (scores : list value) : result value :=
  total ← sum scores;
  mean ← truediv total (Z.of_nat (length scores));
  round mean 4.

(** Arithmetic without rounding error and without overflow: every float
    operation gives the rational result, and [round] the nearest multiple
    of the unit, ties to even.  No interpreter computes this way; it is
    what the float operations approximate. *)
Definition exact_arithmetic : float_arithmetic :=
  {| float_add a b :=
       match num a, num b with
       | Some x, Some y => Ok (x + y)%Q
       | _, _ => Raise (TypeError "unsupported operand type(s) for +")
       end;
     float_sum xs :=
       foldl (fun acc x =>
                a ← acc;
                match num x with
                | Some q => Ok (a + q)%Q
                | None => Raise (TypeError "unsupported operand type(s) for +")
                end)
             (Ok 0%Q) xs;
     float_truediv a n :=
       match num a with
       | Some q => Ok (q / inject_Z n)%Q
       | None => Raise (TypeError "unsupported operand type(s) for /")
       end;
     float_round q ndigits :=
       let scale := 10 ^ Z.of_nat ndigits in
       Qmake (round_half_even (q * inject_Z scale)) (Z.to_pos scale) |}.

(** A candidate dict as the module's docstring has it, as far as the
    summary reads it: the score, if any, is a number, the metrics, if any,
    are a dict, and the three tier counts, where present, are integers. *)
Definition summarisable (d : dict) : Prop :=
  (exists q, num (get d "score" (VFloat 0)) = Some q) /\
  (exists m, get d "metrics" (VDict ∅) = VDict m /\
     forall tier, tier ∈ ["total_strong_skills"; "total_medium_skills"; "total_weak_skills"] ->
       exists n, get m tier (VInt 0) = VInt n).

Definition summary_ok (σ : store) (cs : list ref) : Prop :=
  Forall (fun c => exists d, dicts σ !! c = Some d /\ summarisable d) cs.

(** The batch of the specification's scenario: Bob (10.0), Alice (25.0)
    and Zed (25.0), in this order in the list under reference 0. *)
Definition scenario : store :=
  Store {[ 0%nat := {[ "name" := VStr "Bob"; "score" := VFloat 10 ]};
           1%nat := {[ "name" := VStr "Alice"; "score" := VFloat 25 ]};
           2%nat := {[ "name" := VStr "Zed"; "score" := VFloat 25 ]} ]}
        {[ 0%nat := [0; 1; 2]%nat ]}.

(** A ranked batch of two: Alice (25.0; 2 strong, 1 medium, 4 weak skills)
    and Bob (10.0; 1 strong skill, the other counts missing). *)
Definition ranked_pair : store :=
  Store {[ 0%nat := {[ "name" := VStr "Alice"; "score" := VFloat 25;
                       "metrics" := VDict {[ "total_strong_skills" := VInt 2;
                                             "total_medium_skills" := VInt 1;
                                             "total_weak_skills" := VInt 4 ]} ]};
           1%nat := {[ "name" := VStr "Bob"; "score" := VFloat 10;
                       "metrics" := VDict {[ "total_strong_skills" := VInt 1 ]} ]} ]}
        {[ 0%nat := [0; 1]%nat ]}.

(** The same dict twice in one list. *)
Definition aliased : store :=
  Store {[ 0%nat := {[ "name" := VStr "Bob"; "score" := VFloat 10 ]} ]}
        {[ 0%nat := [0; 0]%nat ]}.

End Spec.

(** ** The other endpoints of Backend/app.py *)

Module Endpoints.
Import Py Heap Ranking App.

(** The form of [/api/candidate/analyse]: the upload under [resume], which
    the model takes to be there, and the optional name and domain. *)
Record candidate_request : Type := CandidateRequest {
  resume : file_storage;
  name_field : option string;
  candidate_domain_field : option string
}.

Definition candidate_analyse (req : candidate_request) : prog response :=
  let file := resume req in
  let name := default "Candidate" (name_field req) in
  let domain := default "Software Engineering" (candidate_domain_field req) in
  raw_text ← invoke (pdf_extract file);
  structured ← invoke (list_to_json raw_text);
  skills ← invoke (extract_skill_from_resume structured);
  metrics ← invoke (generate_analysis_metrics skills);
  scoring ← invoke (calculate_skill_strength metrics);
  score ← of_result (subscript scoring "skill_strength_score");
  note ← invoke (get_recruiter_note name domain skills score);
  shown ← of_result (subscript scoring "skill_strength_score");
  mret (Response 200
          (VDict {[ "name" := VStr name;
                    "domain" := VStr domain;
                    "score" := shown;
                    "metrics" := metrics;
                    "skills" := skills;
                    "recruiter_note" := note ]})).

(** The two endpoints that call one collaborator with what the JSON body
    holds.  The collaborator is any function that returns or raises;
    [float_of_str] is [float] on a string and [float_of_int] is [float] on
    an integer, which rounds and, beyond the range of floats, raises
    [OverflowError]. *)
Section Standalone.
Variable float_of_str : string -> result Q.
Variable float_of_int : Z -> result Q.
Variable recruiter_note : value -> value -> value -> Q -> result value.
Variable candidate_roadmap : value -> value -> value -> value -> result value.

(** [float(v)] *)
Definition float (v : value) : result Q :=
  match v with
  | VInt z => float_of_int z
  | VFloat q => Ok q
  | VStr s => float_of_str s
  | _ => Raise (TypeError ("float() argument must be a string or a real number, not '"
                           +:+ type_name v +:+ "'"))
  end.

(** [/api/recruiter-note] on the parsed body, [None] when the body is
    missing or is not JSON. *)
Definition recruiter_note_endpoint (body : value) : result response :=
  if negb (truthy body)
  then Ok (Response 400 (VDict {[ "error" := VStr "Missing or invalid JSON body." ]}))
  else
    name ← get_attr body "name" (VStr "Candidate");
    domain ← get_attr body "domain" (VStr "Software Engineering");
    skills ← get_attr body "skills" (VDict ∅);
    score ← get_attr body "score" (VFloat 0) ≫= float;
    note ← recruiter_note name domain skills score;
    mret (Response 200 (VDict {[ "recruiter_note" := note ]})).

(** [/api/candidate/suggest] on a body that is a JSON object. *)
Definition candidate_suggest (data : dict) : result response :=
  name ← subscript (VDict data) "name";
  domain ← subscript (VDict data) "domain";
  skills ← subscript (VDict data) "skills";
  score ← subscript (VDict data) "score";
  ai_roadmap ← candidate_roadmap name domain skills score;
  mret (Response 200 ai_roadmap).

End Standalone.

End Endpoints.

(** ** Further observations *)

Module Obs.
Import Py Heap Ranking App Spec.

(** Two records that rank alike: equal scores and equal lower-cased names. *)
Definition tied (σ : store) (a c : ref) : bool :=
  Qeq_bool (score_of σ a) (score_of σ c) && String.eqb (name_key σ a) (name_key σ c).

(** A batch whose second record has a score that is no number. *)
Definition bad_score : store :=
  Store {[ 0%nat := {[ "name" := VStr "Ann"; "score" := VFloat 5 ]};
           1%nat := {[ "name" := VStr "Bo"; "score" := VStr "high" ]} ]}
        {[ 0%nat := [0; 1]%nat ]}.

(** A reference to a record of the store. *)
Definition allocated (σ : store) (c : ref) : Prop := is_Some (dicts σ !! c).

(** A batch whose second record has [None] as metrics. *)
Definition null_metrics : store :=
  Store {[ 0%nat := {[ "name" := VStr "Ann"; "score" := VFloat 5 ]};
           1%nat := {[ "name" := VStr "Bo"; "score" := VFloat 3; "metrics" := VNone ]};
           2%nat := {[ "name" := VStr "Cy" ]} ]}
        {[ 0%nat := [0; 1; 2]%nat ]}.

(** The records of [ranked_pair] under two lists, one in each order. *)
Definition two_orders : store :=
  Store (dicts ranked_pair) {[ 0%nat := [0; 1]%nat; 1%nat := [1; 0]%nat ]}.

(** A batch with two records that rank alike around a better one. *)
Definition with_ties : store :=
  Store {[ 0%nat := {[ "name" := VStr "ann"; "score" := VFloat 5; "id" := VInt 1 ]};
           1%nat := {[ "name" := VStr "Zed"; "score" := VFloat 9 ]};
           2%nat := {[ "name" := VStr "ANN"; "score" := VFloat 5; "id" := VInt 2 ]} ]}
        {[ 0%nat := [0; 1; 2]%nat ]}.

(** Collaborators that keep to their types: the metrics are a dict whose
    tier counts, where present, are integers, and the skill strength score
    of a scoring is a number. *)
Definition metrics_ok (v : value) : Prop :=
  exists m : dict,
    v = VDict m /\
    forall tier, tier ∈ ["total_strong_skills"; "total_medium_skills"; "total_weak_skills"] ->
      exists n, get m tier (VInt 0) = VInt n.

Definition well_typed {S} (E : env S) : Prop :=
  (forall (skills v : value) (s s' : S),
     E (generate_analysis_metrics skills) s = (Ok v, s') -> metrics_ok v)
  /\ (forall (metrics v score : value) (s s' : S),
        E (calculate_skill_strength metrics) s = (Ok v, s') ->
        subscript v "skill_strength_score" = Ok score -> is_Some (num score)).

(** The collaborator calls of a run, in order, each with its answer. *)
Fixpoint calls {S A} (E : env S) (p : prog A) (s : S) : list (call * result value) :=
  match p with
  | Call c k => let '(r, s') := E c s in (c, r) :: calls E (k r) s'
  | _ => []
  end.

(** A string of ASCII characters only. *)
Fixpoint ascii_only (s : string) : bool :=
  match s with
  | EmptyString => true
  | String c s' => (nat_of_ascii c <? 128)%nat && ascii_only s'
  end.

(** The exception of the first entry that a scoring lacks among the three
    the processor reads off it, in the order in which it reads them. *)
Definition scoring_error (scoring : value) : option exn :=
  match subscript scoring "skill_strength_score",
        subscript scoring "weighted_sum",
        subscript scoring "net_skills" with
  | Raise e, _, _ => Some e
  | _, Raise e, _ => Some e
  | _, _, Raise e => Some e
  | _, _, _ => None
  end.

(** A step of the pipeline failed, as the collaborators' answers show it:
    one of them raised, the extracted text is empty, or the scoring lacks
    one of its three entries. *)
Definition step_failed (trace : list (call * result value)) : Prop :=
  (exists (i : nat) (c : call) (e : exn), trace !! i = Some (c, Raise e))
  \/ (exists raw : value, trace.*2 !! 0%nat = Some (Ok raw) /\ truthy raw = false)
  \/ (exists scoring : value,
        trace.*2 !! 4%nat = Some (Ok scoring) /\ is_Some (scoring_error scoring)).

(** The degraded record of a candidate whose processing failed with [e]. *)
Definition degraded (candidate_name : string) (e : exn) (record : dict) : Prop :=
  record !! "name" = Some (VStr candidate_name)
  /\ record !! "score" = Some (VFloat 0)
  /\ record !! "weighted_sum" = Some (VFloat 0)
  /\ record !! "net_skills" = Some (VInt 0)
  /\ record !! "metrics" = Some (VDict ∅)
  /\ record !! "skills" = Some (VDict ∅)
  /\ (exists note : string,
        record !! "recruiter_note" = Some (VStr note)
        /\ String.prefix "Processing failed" note = true
        /\ note = "Processing failed: " +:+ exn_str e)
  /\ record !! "error" = Some (VStr (exn_str e)).

(** Collaborators for the examples: the extracted text is the content of
    the upload, every resume gets the same skills and scoring, and the note
    generator fails for the candidate called Eve and counts its calls. *)
Definition sample_env : env nat := fun c n =>
  match c with
  | pdf_extract file => (Ok (VStr (stream file)), n)
  | list_to_json raw_text => (Ok (VList [raw_text]), n)
  | extract_skill_from_resume _ => (Ok (VDict {[ "languages" := VList [VStr "python"] ]}), n)
  | generate_analysis_metrics _ => (Ok (VDict {[ "total_strong_skills" := VInt 1 ]}), n)
  | calculate_skill_strength _ =>
      (Ok (VDict {[ "skill_strength_score" := VFloat 15;
                    "weighted_sum" := VFloat (3 # 2);
                    "net_skills" := VInt 1 ]}), n)
  | get_recruiter_note candidate_name _ _ _ =>
      if String.eqb candidate_name "Eve"
      then (Raise (Exn "RuntimeError" "quota exceeded"), Datatypes.S n)
      else (Ok (VStr ("A note on " +:+ candidate_name)), Datatypes.S n)
  end.

(** An upload of three files, the first one without a name, with two
    provided names. *)
Definition sample_request : request :=
  Request [FileStorage (Some "") "%PDF";
           FileStorage (Some "eve.pdf") "%PDF eve";
           FileStorage (Some "dan_o-neil.pdf") "%PDF dan"]
          ["Eve"; " "]
          (Some " Data Science ").

End Obs.

(** * Properties *)

Import Py Heap Ranking App Spec Endpoints Obs.

(** ** The order of the sort keys *)

Lemma string_leb_trans (s1 s2 s3 : string) :
  String.leb s1 s2 = true -> String.leb s2 s3 = true -> String.leb s1 s3 = true.
Proof.
  unfold String.leb. revert s2 s3.
  induction s1 as [|a s1 IH]; intros [|b s2] [|c s3]; simpl; try done.
  unfold Ascii.compare.
  destruct (N.compare_spec (N_of_ascii a) (N_of_ascii b)) as [Hab|Hab|Hab];
    destruct (N.compare_spec (N_of_ascii b) (N_of_ascii c)) as [Hbc|Hbc|Hbc];
    destruct (N.compare_spec (N_of_ascii a) (N_of_ascii c)) as [Hac|Hac|Hac];
    try done; try lia.
  apply IH.
Qed.

Lemma string_leb_refl (s : string) : String.leb s s = true.
Proof. destruct (String.leb_total s s); done. Qed.

Lemma string_ltb_false_leb (s1 s2 : string) :
  String.ltb s1 s2 = false <-> String.leb s2 s1 = true.
Proof.
  unfold String.ltb, String.leb. rewrite (String.compare_antisym s2 s1).
  destruct (String.compare s1 s2); simpl; split; done.
Qed.

(** [not (b < a)] is [a <= b]. *)
Lemma tuple_lt_false (a b : Q * string) : tuple_lt b a = false <-> key_le a b.
Proof.
  destruct a as [qa sa], b as [qb sb]. unfold tuple_lt, key_le, Qltb. simpl.
  destruct (Qeq_bool qb qa) eqn:Heq; simpl.
  - apply Qeq_bool_iff in Heq.
    assert (String.ltb sb sa = false <-> String.leb sa sb = true) as Hs
      by apply string_ltb_false_leb.
    destruct (String.eqb_spec sb sa) as [->|Hne]; simpl.
    + split; [intros _; right; split; [by symmetry | apply string_leb_refl] | done].
    + rewrite Hs. split.
      * intros H. right. split; [by symmetry | done].
      * intros [H | [_ H]]; [|done]. rewrite Heq in H. by apply Qlt_irrefl in H.
  - apply Qeq_bool_neq in Heq.
    destruct (Qcompare_spec qb qa) as [H|H|H].
    + done.
    + split; [done|]. intros [H' | [H' _]].
      * exfalso. apply (Qlt_irrefl qa). by apply Qlt_trans with qb.
      * exfalso. apply Heq. by symmetry.
    + split; [by left | done].
Qed.

Lemma key_le_total (a b : Q * string) : key_le a b \/ key_le b a.
Proof.
  unfold key_le. destruct (Qcompare_spec a.1 b.1) as [H|H|H]; [|by left; left|by right; left].
  destruct (String.leb_total a.2 b.2) as [Hs|Hs].
  - left. by right.
  - right. right. split; [by symmetry | done].
Qed.

Lemma key_le_trans (a b c : Q * string) : key_le a b -> key_le b c -> key_le a c.
Proof.
  unfold key_le. intros [H1 | [H1 S1]] [H2 | [H2 S2]].
  - left. by apply Qlt_trans with b.1.
  - left. by rewrite <- H2.
  - left. by rewrite H1.
  - right. split; [by rewrite H1 | by apply string_leb_trans with b.2].
Qed.

Lemma tuple_lt_asym (a b : Q * string) : tuple_lt a b = true -> tuple_lt b a = false.
Proof.
  intros Hab. apply tuple_lt_false.
  destruct (key_le_total a b) as [H|H]; [done|].
  apply tuple_lt_false in H. congruence.
Qed.

Lemma tuple_le_trans (a b c : Q * string) :
  tuple_lt b a = false -> tuple_lt c b = false -> tuple_lt c a = false.
Proof. rewrite !tuple_lt_false. apply key_le_trans. Qed.

(** ** The stable sort *)

Section SortedFacts.
Context {K A : Type} (lt : K -> K -> bool).

Lemma insert_by_Permutation (x : K * A) (l : list (K * A)) :
  insert_by lt x l ≡ₚ x :: l.
Proof.
  induction l as [|y l IH]; simpl; [done|].
  destruct (lt y.1 x.1); [|done].
  rewrite IH. apply Permutation_swap.
Qed.

Lemma insertion_Permutation (l : list (K * A)) : foldr (insert_by lt) [] l ≡ₚ l.
Proof.
  induction l as [|x l IH]; simpl; [done|].
  by rewrite insert_by_Permutation, IH.
Qed.

Lemma sorted_Permutation (l : list (K * A)) : sorted lt l ≡ₚ l.*2.
Proof. unfold sorted. by rewrite insertion_Permutation. Qed.

(** A list in order is left as it is. *)
Lemma insertion_in_order (l : list (K * A)) :
  Sorted (before lt) l -> foldr (insert_by lt) [] l = l.
Proof.
  induction 1 as [|x l Hl IH Hx]; simpl; [done|].
  rewrite IH. destruct Hx as [|y l' Hxy]; simpl; [done|].
  unfold before in Hxy. by rewrite Hxy.
Qed.

Hypothesis lt_asym : forall a b, lt a b = true -> lt b a = false.
Hypothesis le_trans : forall a b c,
  lt b a = false -> lt c b = false -> lt c a = false.

Lemma insert_by_StronglySorted (x : K * A) (l : list (K * A)) :
  StronglySorted (before lt) l -> StronglySorted (before lt) (insert_by lt x l).
Proof.
  induction 1 as [|y l Hl IH Hy]; simpl.
  - repeat constructor.
  - destruct (lt y.1 x.1) eqn:Hyx.
    + constructor; [done|].
      rewrite insert_by_Permutation. constructor; [|done].
      by apply lt_asym.
    + constructor; [by constructor|].
      constructor; [done|].
      eapply Forall_impl; [exact Hy|]. intros z Hz. unfold before in *.
      by apply le_trans with y.1.
Qed.

Lemma insertion_StronglySorted (l : list (K * A)) :
  StronglySorted (before lt) (foldr (insert_by lt) [] l).
Proof.
  induction l as [|x l IH]; simpl; [constructor|].
  by apply insert_by_StronglySorted.
Qed.

(** The sort is stable: the items whose keys are neither smaller nor larger
    than [k] come out in the order they went in. *)
Lemma insert_by_same_key (k : K) (x : K * A) (l : list (K * A)) :
  filter (fun p => same_key lt k p.1 = true) (insert_by lt x l)
  = filter (fun p => same_key lt k p.1 = true) (x :: l).
Proof.
  induction l as [|y l IH]; simpl; [done|].
  destruct (lt y.1 x.1) eqn:Hyx; [|done].
  rewrite (filter_cons _ y), IH, !(filter_cons _ x), (filter_cons _ y).
  destruct (decide (same_key lt k x.1 = true)) as [Hx|Hx]; [|done].
  destruct (decide (same_key lt k y.1 = true)) as [Hy|Hy]; [|done].
  exfalso. unfold same_key in Hx, Hy.
  apply andb_prop in Hx as [Hx _]. apply andb_prop in Hy as [_ Hy].
  apply negb_true_iff in Hx, Hy.
  rewrite (le_trans x.1 k y.1 Hx Hy) in Hyx. done.
Qed.

Lemma insertion_stable (k : K) (l : list (K * A)) :
  filter (fun p => same_key lt k p.1 = true) (foldr (insert_by lt) [] l)
  = filter (fun p => same_key lt k p.1 = true) l.
Proof.
  induction l as [|x l IH]; simpl; [done|].
  by rewrite insert_by_same_key, !filter_cons, IH.
Qed.

End SortedFacts.

Lemma StronglySorted_lookup {A} (R : A -> A -> Prop) (l : list A) (i j : nat) (a b : A) :
  StronglySorted R l -> (i < j)%nat -> l !! i = Some a -> l !! j = Some b -> R a b.
Proof.
  intros Hl. revert i j. induction Hl as [|x l Hl IH Hx]; intros i j Hij Hi Hj; [done|].
  destruct j as [|j]; [lia|]. simpl in Hj.
  destruct i as [|i]; simpl in Hi.
  - injection Hi as ->. rewrite Forall_forall in Hx. apply Hx.
    by apply list_elem_of_lookup_2 in Hj.
  - apply (IH i j); [lia|done|done].
Qed.

(** ** Running [get_domain_leaderboard] *)

Lemma sort_key_ok (σ : store) (c : ref) (d : dict) :
  dicts σ !! c = Some d -> sortable d -> sort_key d = Ok (key_of σ c).
Proof.
  intros Hc [[q Hq] [s Hs]].
  unfold sort_key, key_of, score_of, name_key, field. rewrite Hc. simpl.
  unfold get in *.
  destruct (d !! "name") as [n|]; simpl in *; subst;
    (destruct (d !! "score") as [[]|]; simpl in *; done).
Qed.

Lemma M_bind_run {A B} (m : M A) (f : A -> M B) (σ : store) :
  (m ≫= f) σ = match m σ with
               | (Ok a, σ') => f a σ'
               | (Raise e, σ') => (Raise e, σ')
               end.
Proof. reflexivity. Qed.

Lemma M_ret_run {A} (a : A) (σ : store) : (mret a : M A) σ = (Ok a, σ).
Proof. reflexivity. Qed.

Lemma load_dict_run (σ : store) (c : ref) (d : dict) :
  dicts σ !! c = Some d -> load_dict c σ = (Ok d, σ).
Proof. intros H. unfold load_dict. by rewrite H. Qed.

Lemma load_list_run (σ : store) (r : ref) (xs : list ref) :
  lists σ !! r = Some xs -> load_list r σ = (Ok xs, σ).
Proof. intros H. unfold load_list. by rewrite H. Qed.

Lemma keys_run (σ : store) (cs : list ref) :
  candidates_ok σ cs ->
  mapM (fun c => d ← load_dict c; k ← lift (sort_key d); mret (k, c)) cs σ
  = (Ok ((fun c => (key_of σ c, c)) <$> cs), σ).
Proof.
  induction 1 as [|c cs (d & Hc & Hd) _ IH]; [done|].
  cbn [mapM fmap list_fmap]. rewrite M_bind_run.
  rewrite M_bind_run, (load_dict_run σ c d Hc).
  rewrite M_bind_run. unfold lift at 1. rewrite (sort_key_ok σ c d Hc Hd).
  rewrite M_ret_run, M_bind_run, IH. done.
Qed.

Lemma insert_as_alter {V} (f : V -> V) (m : gmap ref V) (c : ref) (d : V) :
  m !! c = Some d -> <[c := f d]> m = alter f c m.
Proof.
  intros Hc. apply map_eq. intros i.
  rewrite lookup_insert, lookup_alter.
  destruct (decide (c = i)) as [->|]; [by rewrite Hc | done].
Qed.

Lemma with_ranks_alloc (m : gmap ref (gmap string value)) (items : list (Z * ref)) (c : ref) :
  is_Some (with_ranks m items !! c) <-> is_Some (m !! c).
Proof.
  revert m. induction items as [|[z c'] items IH]; intros m; simpl; [done|].
  unfold with_ranks in *. simpl. rewrite IH, lookup_alter.
  destruct (decide (c' = c)) as [->|]; [|done].
  by rewrite fmap_is_Some.
Qed.

Lemma assign_run (items : list (Z * ref)) (m : gmap ref (gmap string value))
    (ls : gmap ref (list ref)) :
  Forall (fun c => is_Some (m !! c)) items.*2 ->
  for_each (fun '(rank, candidate) => set_item candidate "rank" (VInt rank)) items
           (Store m ls)
  = (Ok tt, Store (with_ranks m items) ls).
Proof.
  revert m. induction items as [|[z c] items IH]; intros m Hall; simpl; [done|].
  apply Forall_cons in Hall as [[d Hc] Hall]. simpl in Hc.
  rewrite M_bind_run. unfold set_item at 1. cbn [dicts lists]. rewrite Hc.
  rewrite (insert_as_alter (insert "rank" (VInt z)) m c d Hc).
  apply IH. eapply Forall_impl; [exact Hall|]. intros c' Hc'. simpl in *.
  rewrite lookup_alter. destruct (decide (c = c')) as [->|]; [|done].
  by rewrite fmap_is_Some.
Qed.

Lemma enumerate_snd {A} (xs : list A) (start : Z) : (enumerate xs start).*2 = xs.
Proof. revert start. induction xs as [|x xs IH]; intros; simpl; [done | by rewrite IH]. Qed.

Lemma enumerate_lookup {A} (xs : list A) (start : Z) (i : nat) :
  enumerate xs start !! i = (fun x => (start + Z.of_nat i, x)) <$> xs !! i.
Proof.
  revert start i. induction xs as [|x xs IH]; intros start [|i]; simpl; try done.
  - by rewrite Z.add_0_r.
  - rewrite IH. destruct (xs !! i); simpl; [|done]. do 2 f_equal. lia.
Qed.

Lemma ranking_Permutation (σ : store) (cs : list ref) : ranking σ cs ≡ₚ cs.
Proof.
  unfold ranking. rewrite sorted_Permutation.
  rewrite <- list_fmap_compose. simpl. by rewrite list_fmap_id.
Qed.

Lemma get_domain_leaderboard_run (σ : store) (r : ref) (cs : list ref) :
  lists σ !! r = Some cs ->
  candidates_ok σ cs ->
  get_domain_leaderboard r σ
  = (Ok (fresh (dom (lists σ))),
     Store (with_ranks (dicts σ) (enumerate (ranking σ cs) 1))
           (<[fresh (dom (lists σ)) := ranking σ cs]> (lists σ))).
Proof.
  intros Hr Hcs. unfold get_domain_leaderboard.
  rewrite M_bind_run, (load_list_run σ r cs Hr).
  rewrite M_bind_run, (keys_run σ cs Hcs). fold (ranking σ cs).
  rewrite M_bind_run. unfold new_list at 1. cbv zeta.
  rewrite M_bind_run.
  erewrite load_list_run; [|cbn [lists]; apply lookup_insert_eq].
  rewrite M_bind_run, assign_run; [done|].
  rewrite enumerate_snd. rewrite Forall_forall. intros c Hc.
  rewrite ranking_Permutation in Hc.
  unfold candidates_ok in Hcs. rewrite Forall_forall in Hcs.
  destruct (Hcs c Hc) as (d & Hd & _). cbn [dicts]. by rewrite Hd.
Qed.

(** ** What the rank assignment changes *)

Lemma with_ranks_other (m : gmap ref (gmap string value)) (items : list (Z * ref)) (c : ref) :
  c ∉ items.*2 -> with_ranks m items !! c = m !! c.
Proof.
  revert m. induction items as [|[z c'] items IH]; intros m Hc; [done|].
  rewrite fmap_cons, not_elem_of_cons in Hc. destruct Hc as [Hne Hc].
  unfold with_ranks in *. cbn [foldl]. rewrite IH by done.
  by rewrite lookup_alter_ne.
Qed.

Lemma with_ranks_field (m : gmap ref (gmap string value)) (items : list (Z * ref))
    (c : ref) (k : string) :
  k ≠ "rank" ->
  (with_ranks m items !! c ≫= fun d => d !! k) = (m !! c ≫= fun d => d !! k).
Proof.
  intros Hk. revert m. induction items as [|[z c'] items IH]; intros m; [done|].
  unfold with_ranks in *. cbn [foldl]. rewrite IH, lookup_alter.
  destruct (decide (c' = c)) as [->|]; [|done].
  destruct (m !! c) as [d|]; simpl; [|done].
  by rewrite lookup_insert_ne.
Qed.

Lemma with_ranks_rank (m : gmap ref (gmap string value)) (items : list (Z * ref))
    (i : nat) (z : Z) (c : ref) :
  NoDup items.*2 -> items !! i = Some (z, c) ->
  with_ranks m items !! c = insert "rank" (VInt z) <$> m !! c.
Proof.
  revert m i. induction items as [|[z' c'] items IH]; intros m i Hnd Hi; [done|].
  rewrite fmap_cons in Hnd. apply NoDup_cons in Hnd as [Hc' Hnd].
  unfold with_ranks in *. cbn [foldl]. destruct i as [|i]; simpl in Hi.
  - injection Hi as -> ->.
    fold (with_ranks (alter <["rank":=VInt z]> c m) items).
    rewrite with_ranks_other by done. by rewrite lookup_alter_eq.
  - rewrite (IH _ i) by done. rewrite lookup_alter_ne; [done|].
    intros ->. apply Hc'. apply list_elem_of_lookup_2 in Hi.
    by apply (list_elem_of_fmap_2 snd) in Hi.
Qed.

(** ** The order of the ranking *)

Lemma keyed_insertion (σ : store) (cs : list ref) :
  let l := foldr (insert_by tuple_lt) [] ((fun c => (key_of σ c, c)) <$> cs) in
  Forall (fun p => p.1 = key_of σ p.2) l /\ StronglySorted (before tuple_lt) l
  /\ ranking σ cs = l.*2.
Proof.
  intros l. split; [|split; [|done]].
  - unfold l. rewrite insertion_Permutation. by apply Forall_fmap, Forall_true.
  - apply insertion_StronglySorted.
    + intros a b. apply tuple_lt_asym.
    + intros a b c. apply tuple_le_trans.
Qed.

Lemma ranking_sorted (σ : store) (cs : list ref) (i j : nat) (a b : ref) :
  (i < j)%nat -> ranking σ cs !! i = Some a -> ranking σ cs !! j = Some b ->
  key_le (key_of σ a) (key_of σ b).
Proof.
  destruct (keyed_insertion σ cs) as (Hkey & Hsorted & ->).
  set (l := foldr _ _ _) in *. clearbody l.
  rewrite !list_lookup_fmap. intros Hij Hi Hj.
  destruct (l !! i) as [[ka a']|] eqn:Ei; [|done].
  destruct (l !! j) as [[kb b']|] eqn:Ej; [|done].
  simpl in Hi, Hj. injection Hi as ->. injection Hj as ->.
  rewrite Forall_forall in Hkey.
  pose proof (Hkey _ (list_elem_of_lookup_2 _ _ _ Ei)) as Ha.
  pose proof (Hkey _ (list_elem_of_lookup_2 _ _ _ Ej)) as Hb.
  simpl in Ha, Hb. subst ka kb.
  apply tuple_lt_false.
  apply (StronglySorted_lookup _ _ i j _ _ Hsorted Hij Ei Ej).
Qed.

(** Ranking what is ranked already changes nothing. *)
Lemma ranking_idempotent (σ : store) (cs : list ref) :
  ranking σ (ranking σ cs) = ranking σ cs.
Proof.
  destruct (keyed_insertion σ cs) as (Hkey & Hsorted & E).
  set (l := foldr _ _ _) in *. clearbody l.
  unfold ranking at 1. rewrite E.
  assert ((fun c => (key_of σ c, c)) <$> l.*2 = l) as ->.
  { clear -Hkey. induction Hkey as [|[k c] l Hk _ IH]; [done|].
    simpl in Hk. rewrite !fmap_cons, IH. simpl. by rewrite Hk. }
  unfold sorted. rewrite insertion_in_order; [done|].
  by apply StronglySorted_Sorted.
Qed.

(** Scores and names read the same in a store that differs in ranks only. *)
Lemma key_of_frame (σ σ' : store) (c : ref) :
  (forall k, k ≠ "rank" -> field σ' c k = field σ c k) ->
  score_of σ' c = score_of σ c /\ name_key σ' c = name_key σ c.
Proof.
  intros H. unfold score_of, name_key. by rewrite !H.
Qed.

(** ** The leaderboard *)

Lemma ranked_store_field (σ : store) (items : list (Z * ref)) (ls : gmap ref (list ref))
    (c : ref) (k : string) :
  k ≠ "rank" -> field (Store (with_ranks (dicts σ) items) ls) c k = field σ c k.
Proof. intros Hk. unfold field. cbn [dicts]. by apply with_ranks_field. Qed.

Lemma key_le_scores (sa sb : Q) (na nb : string) :
  key_le ((- sa)%Q, na) ((- sb)%Q, nb) ->
  (sb <= sa)%Q /\ (sa == sb -> String.leb na nb = true).
Proof.
  unfold key_le. simpl. intros [H | [H Hn]].
  - split; [lra|]. intros E. lra.
  - split; [lra | done].
Qed.

Lemma scenario_ok : candidates_ok scenario [0; 1; 2]%nat.
Proof.
  unfold candidates_ok. repeat constructor;
    (eexists; split; [reflexivity | split; eexists; reflexivity]).
Qed.

(** C1: [get_domain_leaderboard] returns the records by descending score
    and, among equal scores, by ascending lower-cased name; a record without
    a score counts as 0.0 and one without a name as the empty string, and
    the stored names are left as they are.  For Bob (10.0), Alice (25.0) and
    Zed (25.0) the order is Alice, Zed, Bob. *)
Theorem get_domain_leaderboard_order :
  (forall (σ : store) (r : ref) (cs : list ref),
     lists σ !! r = Some cs -> candidates_ok σ cs ->
     exists (r' : ref) (σ' : store) (ranked : list ref),
       get_domain_leaderboard r σ = (Ok r', σ')
       /\ lists σ' !! r' = Some ranked
       /\ ranked ≡ₚ cs
       /\ (forall (i j : nat) (a b : ref),
             (i < j)%nat -> ranked !! i = Some a -> ranked !! j = Some b ->
             (score_of σ' b <= score_of σ' a)%Q
             /\ (score_of σ' a == score_of σ' b ->
                 String.leb (name_key σ' a) (name_key σ' b) = true))
       /\ (forall c : ref, field σ' c "name" = field σ c "name"))
  /\ (exists (r' : ref) (σ' : store),
        get_domain_leaderboard 0%nat scenario = (Ok r', σ')
        /\ lists σ' !! r' = Some [1; 2; 0]%nat
        /\ (fun c => field σ' c "name") <$> [1; 2; 0]%nat
           = [Some (VStr "Alice"); Some (VStr "Zed"); Some (VStr "Bob")]).
Proof.
  split.
  - intros σ r cs Hr Hcs. eexists _, _, (ranking σ cs).
    split; [by apply get_domain_leaderboard_run|].
    split; [cbn [lists]; apply lookup_insert_eq|].
    split; [apply ranking_Permutation|].
    split.
    + intros i j a b Hij Ha Hb.
      pose proof (ranking_sorted σ cs i j a b Hij Ha Hb) as Hle.
      apply key_le_scores in Hle.
      set (σ' := Store _ _).
      destruct (key_of_frame σ σ' a) as [-> ->];
        [intros k Hk; by apply ranked_store_field|].
      destruct (key_of_frame σ σ' b) as [-> ->];
        [intros k Hk; by apply ranked_store_field|].
      done.
    + intros c. by apply ranked_store_field.
  - eexists _, _. split; [reflexivity|]. split; reflexivity.
Qed.

Lemma get_domain_leaderboard_order_witness :
  exists (r' : ref) (σ' : store) (ranked : list ref),
    get_domain_leaderboard 0%nat scenario = (Ok r', σ')
    /\ lists σ' !! r' = Some ranked
    /\ ranked ≡ₚ [0; 1; 2]%nat
    /\ (forall (i j : nat) (a b : ref),
          (i < j)%nat -> ranked !! i = Some a -> ranked !! j = Some b ->
          (score_of σ' b <= score_of σ' a)%Q
          /\ (score_of σ' a == score_of σ' b ->
              String.leb (name_key σ' a) (name_key σ' b) = true))
    /\ (forall c : ref, field σ' c "name" = field scenario c "name").
Proof.
  apply (proj1 get_domain_leaderboard_order scenario 0%nat [0; 1; 2]%nat).
  - reflexivity.
  - apply scenario_ok.
Defined.

Lemma ranked_rank (σ : store) (cs : list ref) (ls : gmap ref (list ref)) (i : nat) (c : ref) :
  candidates_ok σ cs -> NoDup cs -> ranking σ cs !! i = Some c ->
  rank_of (Store (with_ranks (dicts σ) (enumerate (ranking σ cs) 1)) ls) c
  = Some (VInt (Z.of_nat i + 1)).
Proof.
  intros Hcs Hnd Hi. unfold rank_of, field. cbn [dicts].
  rewrite (with_ranks_rank _ _ i (1 + Z.of_nat i) c).
  - assert (c ∈ cs) as Hc.
    { rewrite <- (ranking_Permutation σ cs). by apply list_elem_of_lookup_2 in Hi. }
    unfold candidates_ok in Hcs. rewrite Forall_forall in Hcs.
    destruct (Hcs c Hc) as (d & -> & _). simpl.
    rewrite lookup_insert_eq. do 2 f_equal. lia.
  - by rewrite enumerate_snd, ranking_Permutation.
  - by rewrite enumerate_lookup, Hi.
Qed.

(** C2: for N records, each a distinct dict, the ranks of the returned
    records are 1, 2, ..., N from the first position to the last, whatever
    the scores: records with equal scores get consecutive ranks, not a
    shared one. *)
Theorem ranks_are_positions (σ : store) (r : ref) (cs : list ref) :
  lists σ !! r = Some cs -> candidates_ok σ cs -> NoDup cs ->
  exists (r' : ref) (σ' : store) (ranked : list ref),
    get_domain_leaderboard r σ = (Ok r', σ')
    /\ lists σ' !! r' = Some ranked
    /\ length ranked = length cs
    /\ rank_of σ' <$> ranked
       = (fun n => Some (VInt n)) <$> seqZ 1 (Z.of_nat (length cs))
    /\ (forall (i : nat) (c : ref),
          ranked !! i = Some c -> rank_of σ' c = Some (VInt (Z.of_nat i + 1))).
Proof.
  intros Hr Hcs Hnd. eexists _, _, (ranking σ cs).
  split; [by apply get_domain_leaderboard_run|].
  split; [cbn [lists]; apply lookup_insert_eq|].
  assert (length (ranking σ cs) = length cs) as Hlen
    by (by rewrite ranking_Permutation).
  split; [done|].
  split; [|intros i c Hi; by apply ranked_rank].
  apply list_eq. intros i. rewrite !list_lookup_fmap.
  destruct (ranking σ cs !! i) as [c|] eqn:Hi; simpl.
  - rewrite (ranked_rank σ cs _ i c Hcs Hnd Hi).
    apply lookup_lt_Some in Hi.
    rewrite lookup_seqZ_lt by lia. simpl. do 3 f_equal. lia.
  - apply lookup_ge_None in Hi. rewrite lookup_seqZ_ge by lia. done.
Qed.

Lemma ranks_are_positions_witness :
  exists (r' : ref) (σ' : store) (ranked : list ref),
    get_domain_leaderboard 0%nat scenario = (Ok r', σ')
    /\ lists σ' !! r' = Some ranked
    /\ length ranked = 3%nat
    /\ rank_of σ' <$> ranked = [Some (VInt 1); Some (VInt 2); Some (VInt 3)]
    /\ (forall (i : nat) (c : ref),
          ranked !! i = Some c -> rank_of σ' c = Some (VInt (Z.of_nat i + 1))).
Proof.
  apply (ranks_are_positions scenario 0%nat [0; 1; 2]%nat).
  - reflexivity.
  - apply scenario_ok.
  - compute_done.
Defined.

(** A dict that stands twice in the list is ranked twice and keeps the rank
    written last: the ranks read off the returned list are 2, 2 and not
    1, 2. *)
Lemma shared_record_last_rank :
  exists (r' : ref) (σ' : store) (ranked : list ref),
    get_domain_leaderboard 0%nat aliased = (Ok r', σ')
    /\ lists σ' !! r' = Some ranked
    /\ length ranked = 2%nat
    /\ rank_of σ' <$> ranked = [Some (VInt 2); Some (VInt 2)]
    /\ rank_of σ' <$> ranked
       ≠ (fun n => Some (VInt n)) <$> seqZ 1 (Z.of_nat (length ranked)).
Proof.
  eexists _, _, _. split; [reflexivity|]. split; [reflexivity|].
  split; [reflexivity|]. split; [reflexivity|]. discriminate.
Qed.

(** C3: the returned list holds the records of the input, each as often as
    the input does: same length, none dropped, none duplicated, the names
    kept; and on every record no field but [rank] is added, removed or
    changed. *)
Theorem get_domain_leaderboard_frame (σ : store) (r : ref) (cs : list ref) :
  lists σ !! r = Some cs -> candidates_ok σ cs ->
  exists (r' : ref) (σ' : store) (ranked : list ref),
    get_domain_leaderboard r σ = (Ok r', σ')
    /\ lists σ' !! r' = Some ranked
    /\ ranked ≡ₚ cs
    /\ length ranked = length cs
    /\ (fun c => field σ' c "name") <$> ranked ≡ₚ (fun c => field σ c "name") <$> cs
    /\ (forall (c : ref) (k : string), k ≠ "rank" -> field σ' c k = field σ c k)
    /\ (forall c : ref, is_Some (dicts σ' !! c) <-> is_Some (dicts σ !! c))
    /\ (forall c : ref, c ∉ cs -> dicts σ' !! c = dicts σ !! c).
Proof.
  intros Hr Hcs. eexists _, _, (ranking σ cs).
  split; [by apply get_domain_leaderboard_run|].
  split; [cbn [lists]; apply lookup_insert_eq|].
  split; [apply ranking_Permutation|].
  split; [by rewrite ranking_Permutation|].
  assert (forall (c : ref) (k : string), k ≠ "rank" ->
            field (Store (with_ranks (dicts σ) (enumerate (ranking σ cs) 1))
                         (<[fresh (dom (lists σ)):=ranking σ cs]> (lists σ))) c k
            = field σ c k) as Hframe
    by (intros c k Hk; by apply ranked_store_field).
  split.
  - rewrite (ranking_Permutation σ cs) at 1.
    assert ((fun c => field (Store (with_ranks (dicts σ) (enumerate (ranking σ cs) 1))
                                   (<[fresh (dom (lists σ)):=ranking σ cs]> (lists σ)))
                            c "name") <$> cs
            = (fun c => field σ c "name") <$> cs) as ->; [|done].
    apply list_fmap_ext. intros _ c _. by apply Hframe.
  - split; [done|]. split.
    + intros c. cbn [dicts]. apply with_ranks_alloc.
    + intros c Hc. cbn [dicts]. apply with_ranks_other.
      by rewrite enumerate_snd, ranking_Permutation.
Qed.

Lemma get_domain_leaderboard_frame_witness :
  exists (r' : ref) (σ' : store) (ranked : list ref),
    get_domain_leaderboard 0%nat scenario = (Ok r', σ')
    /\ lists σ' !! r' = Some ranked
    /\ ranked ≡ₚ [0; 1; 2]%nat
    /\ length ranked = 3%nat
    /\ (fun c => field σ' c "name") <$> ranked
       ≡ₚ [Some (VStr "Bob"); Some (VStr "Alice"); Some (VStr "Zed")]
    /\ (forall (c : ref) (k : string), k ≠ "rank" -> field σ' c k = field scenario c k)
    /\ (forall c : ref, is_Some (dicts σ' !! c) <-> is_Some (dicts scenario !! c))
    /\ (forall c : ref, c ∉ [0; 1; 2]%nat -> dicts σ' !! c = dicts scenario !! c).
Proof.
  apply (get_domain_leaderboard_frame scenario 0%nat [0; 1; 2]%nat).
  - reflexivity.
  - apply scenario_ok.
Defined.

(** C10: the list returned is a new object.  The list passed in is unchanged,
    its elements in the order they had; the sorted order is that of the
    returned list only, and the dicts differ from before in [rank] alone. *)
Theorem get_domain_leaderboard_new_list (σ : store) (r : ref) (cs : list ref) :
  lists σ !! r = Some cs -> candidates_ok σ cs ->
  exists (r' : ref) (σ' : store),
    get_domain_leaderboard r σ = (Ok r', σ')
    /\ r' ≠ r
    /\ lists σ !! r' = None
    /\ lists σ' !! r = Some cs
    /\ lists σ' !! r' = Some (ranking σ cs)
    /\ (forall r0 : ref, r0 ≠ r' -> lists σ' !! r0 = lists σ !! r0)
    /\ (forall (c : ref) (k : string), k ≠ "rank" -> field σ' c k = field σ c k).
Proof.
  intros Hr Hcs. eexists _, _.
  split; [by apply get_domain_leaderboard_run|].
  assert (lists σ !! fresh (dom (lists σ)) = None) as Hfresh
    by (apply not_elem_of_dom, is_fresh).
  assert (fresh (dom (lists σ)) ≠ r) as Hne by (intros E; congruence).
  split; [done|]. split; [done|]. cbn [lists].
  split; [by rewrite lookup_insert_ne|].
  split; [apply lookup_insert_eq|].
  split; [intros r0 Hr0; by rewrite lookup_insert_ne|].
  intros c k Hk. by apply ranked_store_field.
Qed.

Lemma get_domain_leaderboard_new_list_witness :
  exists (r' : ref) (σ' : store),
    get_domain_leaderboard 0%nat scenario = (Ok r', σ')
    /\ r' ≠ 0%nat
    /\ lists scenario !! r' = None
    /\ lists σ' !! 0%nat = Some [0; 1; 2]%nat
    /\ lists σ' !! r' = Some [1; 2; 0]%nat
    /\ (forall r0 : ref, r0 ≠ r' -> lists σ' !! r0 = lists scenario !! r0)
    /\ (forall (c : ref) (k : string), k ≠ "rank" -> field σ' c k = field scenario c k).
Proof.
  apply (get_domain_leaderboard_new_list scenario 0%nat [0; 1; 2]%nat).
  - reflexivity.
  - apply scenario_ok.
Defined.

(** ** Ranking twice *)

Lemma ranked_store_ok (σ : store) (items : list (Z * ref)) (ls : gmap ref (list ref))
    (cs : list ref) :
  candidates_ok σ cs -> candidates_ok (Store (with_ranks (dicts σ) items) ls) cs.
Proof.
  unfold candidates_ok. intros Hcs. eapply Forall_impl; [exact Hcs|].
  intros c (d & Hd & Hs). cbn [dicts].
  destruct (proj2 (with_ranks_alloc (dicts σ) items c)) as [d' Hd']; [by rewrite Hd|].
  exists d'. split; [done|].
  assert (forall k, k ≠ "rank" -> d' !! k = d !! k) as Hk.
  { intros k Hk. pose proof (with_ranks_field (dicts σ) items c k Hk) as E.
    by rewrite Hd, Hd' in E. }
  unfold sortable, get in *. by rewrite !Hk.
Qed.

Lemma ranking_frame (σ σ' : store) (cs : list ref) :
  (forall (c : ref) (k : string), k ≠ "rank" -> field σ' c k = field σ c k) ->
  ranking σ' cs = ranking σ cs.
Proof.
  intros H. unfold ranking. f_equal. apply list_fmap_ext. intros _ c _.
  unfold key_of. destruct (key_of_frame σ σ' c) as [-> ->]; [|done].
  intros k Hk. by apply H.
Qed.

(** C7: ranking the list that a ranking returned gives the records in the
    same order again. *)
Theorem get_domain_leaderboard_idempotent (σ : store) (r : ref) (cs : list ref) :
  lists σ !! r = Some cs -> candidates_ok σ cs ->
  exists (r1 r2 : ref) (σ1 σ2 : store) (ranked : list ref),
    get_domain_leaderboard r σ = (Ok r1, σ1)
    /\ lists σ1 !! r1 = Some ranked
    /\ get_domain_leaderboard r1 σ1 = (Ok r2, σ2)
    /\ lists σ2 !! r2 = Some ranked.
Proof.
  intros Hr Hcs.
  set (r1 := fresh (dom (lists σ))).
  set (σ1 := Store (with_ranks (dicts σ) (enumerate (ranking σ cs) 1))
                   (<[r1 := ranking σ cs]> (lists σ))).
  assert (lists σ1 !! r1 = Some (ranking σ cs)) as Hr1
    by (cbn [lists σ1]; apply lookup_insert_eq).
  assert (candidates_ok σ1 (ranking σ cs)) as Hok.
  { apply ranked_store_ok. unfold candidates_ok.
    by rewrite ranking_Permutation. }
  assert (ranking σ1 (ranking σ cs) = ranking σ cs) as Hsame.
  { rewrite (ranking_frame σ σ1); [apply ranking_idempotent|].
    intros c k Hk. by apply ranked_store_field. }
  eexists r1, _, σ1, _, (ranking σ cs).
  split; [by apply get_domain_leaderboard_run|].
  split; [done|].
  split; [by apply get_domain_leaderboard_run|].
  cbn [lists]. by rewrite lookup_insert_eq, Hsame.
Qed.

Lemma get_domain_leaderboard_idempotent_witness :
  exists (r1 r2 : ref) (σ1 σ2 : store) (ranked : list ref),
    get_domain_leaderboard 0%nat scenario = (Ok r1, σ1)
    /\ lists σ1 !! r1 = Some ranked
    /\ get_domain_leaderboard r1 σ1 = (Ok r2, σ2)
    /\ lists σ2 !! r2 = Some ranked.
Proof.
  apply (get_domain_leaderboard_idempotent scenario 0%nat [0; 1; 2]%nat).
  - reflexivity.
  - apply scenario_ok.
Defined.

(** ** The summary *)





Lemma add_item_strong {arith : float_arithmetic} (a b w n : Z) :
  add_item (tiers a b w) "strong" (VInt n) = Ok (tiers (a + n) b w).
Proof.
  unfold add_item, subscript, tiers. rewrite lookup_insert_eq.
  cbn [mbind result_bind add mret result_ret]. by rewrite insert_insert_eq.
Qed.

Lemma add_item_medium {arith : float_arithmetic} (a b w n : Z) :
  add_item (tiers a b w) "medium" (VInt n) = Ok (tiers a (b + n) w).
Proof.
  unfold add_item, subscript, tiers.
  rewrite lookup_insert_ne by done. rewrite lookup_insert_eq.
  cbn [mbind result_bind add mret result_ret].
  rewrite (insert_insert_ne _ "medium" "strong") by done.
  by rewrite insert_insert_eq.
Qed.

Lemma add_item_weak {arith : float_arithmetic} (a b w n : Z) :
  add_item (tiers a b w) "weak" (VInt n) = Ok (tiers a b (w + n)).
Proof.
  unfold add_item, subscript, tiers.
  rewrite !lookup_insert_ne by done. rewrite lookup_singleton_eq.
  cbn [mbind result_bind add mret result_ret].
  rewrite (insert_insert_ne _ "weak" "strong") by done.
  rewrite (insert_insert_ne _ "weak" "medium") by done.
  by rewrite insert_singleton_eq.
Qed.

Lemma tier_count_get (σ : store) (c : ref) (d m : dict) (tier : string) (n : Z) :
  dicts σ !! c = Some d -> get d "metrics" (VDict ∅) = VDict m ->
  get m tier (VInt 0) = VInt n -> tier_count σ tier c = n.
Proof.
  intros Hc Hm Hn. unfold tier_count, field, get in *. rewrite Hc. simpl.
  assert (default (VDict ∅) (d !! "metrics") = VDict m) as ->
    by (by destruct (d !! "metrics")).
  assert (default (VInt 0) (m !! tier) = VInt n) as ->
    by (by destruct (m !! tier)).
  done.
Qed.

Lemma count_tiers_ok {arith : float_arithmetic} (σ : store) (c : ref) (d : dict)
    (a b w : Z) :
  dicts σ !! c = Some d -> summarisable d ->
  count_tiers (tiers a b w) d
  = Ok (tiers (a + tier_count σ "total_strong_skills" c)
              (b + tier_count σ "total_medium_skills" c)
              (w + tier_count σ "total_weak_skills" c)).
Proof.
  intros Hc (_ & m & Hm & Htier).
  destruct (Htier "total_strong_skills") as [ns Hs]; [set_solver|].
  destruct (Htier "total_medium_skills") as [nm Hmed]; [set_solver|].
  destruct (Htier "total_weak_skills") as [nw Hw]; [set_solver|].
  rewrite (tier_count_get σ c d m _ ns), (tier_count_get σ c d m _ nm),
    (tier_count_get σ c d m _ nw) by done.
  unfold count_tiers. rewrite Hm. unfold get_attr. rewrite Hs, Hmed, Hw.
  cbn [mbind result_bind]. rewrite add_item_strong.
  cbn [mbind result_bind]. rewrite add_item_medium.
  apply add_item_weak.
Qed.

Lemma count_all {arith : float_arithmetic} (σ : store) (cs : list ref) (ds : list dict)
    (a b w : Z) :
  Forall2 (fun c d => dicts σ !! c = Some d /\ summarisable d) cs ds ->
  foldl (fun acc c => dist ← acc; count_tiers dist c) (Ok (tiers a b w)) ds
  = Ok (tiers (a + tier_total σ "total_strong_skills" cs)
              (b + tier_total σ "total_medium_skills" cs)
              (w + tier_total σ "total_weak_skills" cs)).
Proof.
  intros H. revert a b w. induction H as [|c d cs ds [Hc Hd] _ IH]; intros a b w.
  - unfold tier_total. simpl. by rewrite !Z.add_0_r.
  - cbn [foldl mbind result_bind]. rewrite (count_tiers_ok σ c d) by done.
    rewrite IH. unfold tier_total. cbn [fmap list_fmap foldr].
    by rewrite !Z.add_assoc.
Qed.

Lemma load_dicts_run (σ : store) (cs : list ref) (ds : list dict) :
  Forall2 (fun c d => dicts σ !! c = Some d) cs ds ->
  mapM load_dict cs σ = (Ok ds, σ).
Proof.
  induction 1 as [|c d cs ds Hc _ IH]; [done|].
  cbn [mapM]. rewrite M_bind_run, (load_dict_run σ c d Hc).
  by rewrite M_bind_run, IH.
Qed.

Lemma summary_ok_dicts (σ : store) (cs : list ref) :
  summary_ok σ cs ->
  exists ds, Forall2 (fun c d => dicts σ !! c = Some d /\ summarisable d) cs ds.
Proof.
  induction 1 as [|c cs (d & Hc & Hd) _ [ds IH]].
  - by exists [].
  - exists (d :: ds). by constructor.
Qed.


Lemma scores_read (σ : store) (cs : list ref) (ds : list dict) :
  Forall2 (fun c d => dicts σ !! c = Some d) cs ds ->
  (fun c => get c "score" (VFloat 0)) <$> ds = scores_of σ cs.
Proof.
  induction 1 as [|c d cs ds Hc _ IH]; [done|].
  unfold scores_of. rewrite !fmap_cons. f_equal; [|done].
  unfold field, get. rewrite Hc. simpl. by destruct (d !! "score").
Qed.

(** The summary of a list that is not empty, given what the interpreter
    computes as the average of its scores. *)
Lemma summary_run {arith : float_arithmetic} (σ : store) (r c0 : ref) (cs : list ref)
    (avg : value) :
  lists σ !! r = Some (c0 :: cs) -> summary_ok σ (c0 :: cs) ->
  average (scores_of σ (c0 :: cs)) = Ok avg ->
  build_leaderboard_summary r σ
  = (Ok (VDict
           {[ "total_candidates" := VInt (Z.of_nat (length (c0 :: cs)));
              "top_candidate" := default VNone (field σ c0 "name");
              "average_score" := avg;
              "score_distribution" :=
                VDict (tiers (tier_total σ "total_strong_skills" (c0 :: cs))
                             (tier_total σ "total_medium_skills" (c0 :: cs))
                             (tier_total σ "total_weak_skills" (c0 :: cs))) ]}),
     σ).
Proof.
  intros Hr Hok Havg. destruct (summary_ok_dicts σ _ Hok) as [ds Hds].
  assert (Forall2 (fun c d => dicts σ !! c = Some d) (c0 :: cs) ds) as Hload
    by (eapply Forall2_impl; [exact Hds | by intros ?? []]).
  unfold build_leaderboard_summary.
  rewrite M_bind_run, (load_list_run σ r _ Hr). cbn [truthy_list negb].
  rewrite M_bind_run, (load_dicts_run σ _ ds Hload). cbv zeta.
  rewrite (scores_read σ _ ds Hload).
  unfold average in Havg.
  rewrite M_bind_run. unfold lift at 1.
  destruct (sum (scores_of σ (c0 :: cs))) as [total|e]; [|done].
  cbn [mbind result_bind] in Havg.
  rewrite M_bind_run. unfold lift at 1.
  destruct (truediv total _) as [mean|e]; [|done].
  cbn [mbind result_bind] in Havg.
  rewrite M_bind_run. unfold lift at 1. rewrite Havg.
  rewrite M_bind_run. unfold lift at 1.
  fold (tiers 0 0 0).
  rewrite (count_all σ (c0 :: cs) ds 0 0 0 Hds), !Z.add_0_l.
  rewrite M_bind_run. unfold lift at 1.
  inversion Hds as [|? d0 ? ds' [Hc0 _] _]; subst. cbn [index0].
  rewrite M_ret_run. do 3 f_equal.
  assert (get_or_None d0 "name" = default VNone (field σ c0 "name")) as ->; [|done].
  unfold get_or_None, get, field. rewrite Hc0. simpl. by destruct (d0 !! "name").
Qed.



Lemma ranked_pair_ok : summary_ok ranked_pair [0; 1]%nat.
Proof.
  unfold summary_ok. repeat constructor;
    (eexists; split; [reflexivity|]; split; [eexists; reflexivity|];
     eexists; split; [reflexivity|]; intros tier Ht;
     repeat (apply elem_of_cons in Ht as [->|Ht]; [eexists; reflexivity|]);
     by apply elem_of_nil in Ht).
Qed.


(** C6: on the empty list the summary is the zero summary (no candidates,
    no top candidate, average 0.0, every count 0) and is returned without a
    division, which by zero would raise; the ranking of the empty list is
    an empty list and raises nothing. *)
Theorem empty_batch {arith : float_arithmetic} (σ : store) (r : ref) :
  lists σ !! r = Some [] ->
  build_leaderboard_summary r σ
  = (Ok (VDict {[ "total_candidates" := VInt 0;
                  "top_candidate" := VNone;
                  "average_score" := VFloat 0;
                  "score_distribution" := VDict (tiers 0 0 0) ]}),
     σ)
  /\ truediv (VInt 0) 0 = Raise ZeroDivisionError
  /\ exists (r' : ref) (σ' : store),
       get_domain_leaderboard r σ = (Ok r', σ')
       /\ lists σ' !! r' = Some []
       /\ dicts σ' = dicts σ.
Proof.
  intros Hr. split; [|split; [done|]].
  - unfold build_leaderboard_summary.
    by rewrite M_bind_run, (load_list_run σ r _ Hr).
  - eexists _, _.
    split; [apply (get_domain_leaderboard_run σ r []); [done | constructor]|].
    split; [cbn [lists]; apply lookup_insert_eq | done].
Qed.

Lemma empty_batch_witness :
  build_leaderboard_summary (arith := exact_arithmetic) 5%nat (Store ∅ {[ 5%nat := [] ]})
  = (Ok (VDict {[ "total_candidates" := VInt 0;
                  "top_candidate" := VNone;
                  "average_score" := VFloat 0;
                  "score_distribution" := VDict (tiers 0 0 0) ]}),
     Store ∅ {[ 5%nat := [] ]})
  /\ truediv (arith := exact_arithmetic) (VInt 0) 0 = Raise ZeroDivisionError
  /\ exists (r' : ref) (σ' : store),
       get_domain_leaderboard 5%nat (Store ∅ {[ 5%nat := [] ]}) = (Ok r', σ')
       /\ lists σ' !! r' = Some []
       /\ dicts σ' = dicts (Store ∅ {[ 5%nat := [] ]}).
Proof.
  apply (empty_batch (arith := exact_arithmetic) (Store ∅ {[ 5%nat := [] ]}) 5%nat).
  reflexivity.
Defined.

(** ** Running programs *)

Lemma run_bind {S A B} (E : env S) (m : prog A) (f : A -> prog B) (s : S) :
  run E (m ≫= f) s = match run E m s with
                     | (Ok a, s') => run E (f a) s'
                     | (Raise e, s') => (Raise e, s')
                     end.
Proof.
  revert s. induction m as [a|e|c k IH]; intros s; try done.
  change (run E (Call c (fun r => k r ≫= f)) s
          = match run E (Call c k) s with
            | (Ok a, s') => run E (f a) s'
            | (Raise e, s') => (Raise e, s')
            end).
  cbn [run]. destruct (E c s) as [r s']. apply IH.
Qed.

Lemma run_try_except {S A} (E : env S) (body : prog A) (handler : exn -> prog A) (s : S) :
  run E (try_except body handler) s
  = match run E body s with
    | (Ok a, s') => (Ok a, s')
    | (Raise e, s') => run E (handler e) s'
    end.
Proof.
  revert s. induction body as [a|e|c k IH]; intros s; try done.
  cbn [try_except run]. destruct (E c s) as [r s']. apply IH.
Qed.

Lemma run_invoke {S} (E : env S) (c : call) (s : S) : run E (invoke c) s = E c s.
Proof. unfold invoke. cbn [run]. by destruct (E c s) as [[v|e] s']. Qed.

Lemma run_of_result {S A} (E : env S) (r : result A) (s : S) :
  run E (of_result r) s = (r, s).
Proof. by destruct r. Qed.

(** ** The resume processor *)

(** A record built by the [try] block has the seven fields and no [error]. *)
Lemma process_steps_success {S} (E : env S) (s s' : S) (file : file_storage)
    (candidate_name domain : string) (d : dict) :
  run E (process_steps file candidate_name domain) s = (Ok d, s') ->
  exists score weighted_sum net_skills metrics skills note : value,
    d = {[ "name" := VStr candidate_name;
           "score" := score;
           "weighted_sum" := weighted_sum;
           "net_skills" := net_skills;
           "metrics" := metrics;
           "skills" := skills;
           "recruiter_note" := note ]}.
Proof.
  unfold process_steps. rewrite run_bind, run_invoke.
  destruct (E (pdf_extract file) s) as [[raw_text|?] s1]; [|done].
  destruct (truthy raw_text); cbn [negb]; [|done].
  rewrite run_bind, run_invoke.
  destruct (E (list_to_json raw_text) s1) as [[structured|?] s2]; [|done].
  rewrite run_bind, run_invoke.
  destruct (E (extract_skill_from_resume structured) s2) as [[skills|?] s3]; [|done].
  rewrite run_bind, run_invoke.
  destruct (E (generate_analysis_metrics skills) s3) as [[metrics|?] s4]; [|done].
  rewrite run_bind, run_invoke.
  destruct (E (calculate_skill_strength metrics) s4) as [[scoring|?] s5]; [|done].
  rewrite run_bind, run_of_result.
  destruct (subscript scoring "skill_strength_score") as [score|?]; [|done].
  rewrite run_bind, run_invoke.
  destruct (E (get_recruiter_note candidate_name domain skills score) s5)
    as [[note|?] s6]; [|done].
  rewrite run_bind, run_of_result.
  destruct (subscript scoring "weighted_sum") as [weighted_sum|?]; [|done].
  rewrite run_bind, run_of_result.
  destruct (subscript scoring "net_skills") as [net_skills|?]; [|done].
  intros [= <- _]. by eexists _, _, _, _, _, _.
Qed.

(** ** The leaderboard endpoint *)

(** C8: a request without a valid file is answered at once with the
    validation error, status 400: the program is this answer, with no call
    to a collaborator before it, so no candidate is processed and no record
    made, and the answer carries no leaderboard. *)
Theorem leaderboard_rejects_empty_batch {arith : float_arithmetic} (req : request) :
  valid_files_of (files req) = [] ->
  leaderboard req
  = Ret (Response 400 (VDict {[ "error" := VStr "No PDF files provided." ]}))
  /\ (forall (S : Type) (E : env S) (s : S),
        run E (leaderboard req) s
        = (Ok (Response 400 (VDict {[ "error" := VStr "No PDF files provided." ]})), s))
  /\ (forall (S : Type) (E : env S) (s s' : S) (answer : response),
        run E (leaderboard req) s = (Ok answer, s') ->
        exists body : dict,
          status answer = 400 /\ s' = s /\ App.body answer = VDict body
          /\ body !! "leaderboard" = None /\ body !! "summary" = None
          /\ body !! "error" = Some (VStr "No PDF files provided.")).
Proof.
  intros H. unfold leaderboard. rewrite H. cbn [truthy_list negb].
  split; [done|]. split; [done|].
  intros S E s s' answer [= <- <-]. by eexists.
Qed.

Lemma leaderboard_rejects_empty_batch_witness :
  let req := Request [FileStorage (Some "") "%PDF"; FileStorage None ""] ["Ann"] None in
  leaderboard (arith := exact_arithmetic) req
  = Ret (Response 400 (VDict {[ "error" := VStr "No PDF files provided." ]}))
  /\ (forall (S : Type) (E : env S) (s : S),
        run E (leaderboard (arith := exact_arithmetic) req) s
        = (Ok (Response 400 (VDict {[ "error" := VStr "No PDF files provided." ]})), s))
  /\ (forall (S : Type) (E : env S) (s s' : S) (answer : response),
        run E (leaderboard (arith := exact_arithmetic) req) s = (Ok answer, s') ->
        exists body : dict,
          status answer = 400 /\ s' = s /\ App.body answer = VDict body
          /\ body !! "leaderboard" = None /\ body !! "summary" = None
          /\ body !! "error" = Some (VStr "No PDF files provided.")).
Proof.
  apply (leaderboard_rejects_empty_batch (arith := exact_arithmetic)
           (Request [FileStorage (Some "") "%PDF"; FileStorage None ""] ["Ann"] None)).
  reflexivity.
Defined.

(** *** Candidate names *)

Lemma rfind_from_lower (c : ascii) (s : string) (i found : Z) :
  -1 <= found -> 0 <= i -> -1 <= rfind_from c s i found.
Proof.
  revert i found. induction s as [|a s IH]; intros i found Hf Hi; simpl; [done|].
  apply IH; [destruct (Ascii.eqb a c); lia | lia].
Qed.

Lemma splitext_stem_nonempty (p : string) : p ≠ "" -> (splitext p).1 ≠ "".
Proof.
  intros Hp. unfold splitext.
  pose proof (rfind_from_lower "/" p 0 (-1) ltac:(lia) ltac:(lia)) as Hsep.
  fold (rfind "/" p) in Hsep.
  set (sepIndex := rfind "/" p) in *. set (dotIndex := rfind "." p) in *.
  destruct (Z.ltb_spec sepIndex dotIndex) as [Hlt|]; cbn [andb]; [|done].
  destruct (splitext_scan p (sepIndex + 1) (Z.to_nat (dotIndex - (sepIndex + 1))))
    eqn:Hscan; [|done].
  cbn [fst]. unfold slice_to.
  destruct (Z.to_nat dotIndex) as [|n] eqn:Hn.
  - assert (Z.to_nat (dotIndex - (sepIndex + 1)) = 0%nat) as E by lia.
    rewrite E in Hscan. done.
  - destruct p as [|a p]; [done|]. done.
Qed.

Lemma map_string_nonempty (f : ascii -> ascii) (s : string) :
  s ≠ "" -> map_string f s ≠ "".
Proof. by destruct s. Qed.

Lemma title_nonempty (s : string) : s ≠ "" -> title s ≠ "".
Proof. by destruct s. Qed.

Lemma truthy_str (s : string) : truthy (VStr s) = true <-> s ≠ "".
Proof.
  simpl. destruct (String.eqb_spec s ""); simpl; split; done.
Qed.

Lemma candidate_name_of_valid (names : list string) (i : nat) (file : file_storage) :
  file_truthy file = true ->
  exists name : string,
    candidate_name_of names i file = Ok name /\ name ≠ "".
Proof.
  unfold file_truthy. destruct (filename file) as [fname|] eqn:Hf; [|done].
  rewrite truthy_str. intros Hne.
  assert (title (replace_char "-" " " (replace_char "_" " " (splitext fname).1)) ≠ "")
    as Hfallback
    by (by apply title_nonempty, map_string_nonempty, map_string_nonempty,
          splitext_stem_nonempty).
  unfold candidate_name_of. rewrite Hf.
  destruct (names !! i) as [provided|]; [|by eexists].
  destruct (truthy (VStr (strip provided))) eqn:Hp; [|by eexists].
  eexists. split; [done|]. by apply truthy_str.
Qed.

Lemma valid_files_truthy (fs : list file_storage) :
  Forall (fun f => file_truthy f = true) (valid_files_of fs).
Proof.
  unfold valid_files_of. apply Forall_forall. intros f Hf.
  apply list_elem_of_filter in Hf as [Hf _].
  by apply andb_prop in Hf as [Hf _].
Qed.

Lemma process_single_resume_named {S} (E : env S) (s : S) (file : file_storage)
    (candidate_name domain : string) :
  exists (record : dict) (s' : S),
    run E (_process_single_resume file candidate_name domain) s = (Ok record, s')
    /\ record !! "name" = Some (VStr candidate_name).
Proof.
  unfold _process_single_resume. rewrite run_try_except.
  destruct (run E (process_steps file candidate_name domain) s) as [[d|e] s1] eqn:Hrun.
  - exists d, s1. split; [done|].
    by apply process_steps_success in Hrun as (? & ? & ? & ? & ? & ? & ->).
  - by eexists _, _.
Qed.

Lemma process_files_named {S} (E : env S) (names : list string) (domain : string)
    (fs : list file_storage) (i : nat) (s : S) :
  Forall (fun f => file_truthy f = true) fs ->
  exists (records : list dict) (s' : S),
    run E (process_files names domain i fs) s = (Ok records, s')
    /\ length records = length fs
    /\ (forall (j : nat) (d : dict),
          records !! j = Some d ->
          exists (f : file_storage) (name : string),
            fs !! j = Some f
            /\ candidate_name_of names (i + j) f = Ok name
            /\ d !! "name" = Some (VStr name)
            /\ name ≠ "").
Proof.
  intros Hfs. revert i s. induction Hfs as [|f fs Hf _ IH]; intros i s.
  - exists [], s. split; [done|]. split; [done|]. intros j d Hj. done.
  - destruct (candidate_name_of_valid names i f Hf) as (name & Hname & Hne).
    destruct (process_single_resume_named E s f name domain) as (d & s1 & Hrun & Hd).
    destruct (IH (Datatypes.S i) s1) as (records & s2 & Hrest & Hlen & Hrecords).
    exists (d :: records), s2. cbn [process_files].
    rewrite run_bind, run_of_result, Hname.
    rewrite run_bind, Hrun, run_bind, Hrest.
    split; [done|]. split; [simpl; by rewrite Hlen|].
    intros [|j] d' Hj; simpl in Hj.
    + injection Hj as <-. exists f, name. by rewrite Nat.add_0_r.
    + destruct (Hrecords j d' Hj) as (f' & name' & Hf' & Hn' & Hd' & Hne').
      exists f', name'. split; [done|]. split; [|done].
      by replace (i + Datatypes.S j)%nat with (Datatypes.S i + j)%nat by lia.
Qed.

(** C9: every candidate processed for a valid file gets a name that is not
    empty; when no name, or only a blank one, is provided for the file, the
    name is the file name without its extension, with every underscore and
    hyphen turned into a space, in title case. *)
Theorem candidate_names_never_empty {S : Type} (E : env S) (s : S)
    (req : request) (domain : string) :
  (exists (records : list dict) (s' : S),
     run E (process_files (names req) domain 0 (valid_files_of (files req))) s
     = (Ok records, s')
     /\ length records = length (valid_files_of (files req))
     /\ Forall (fun d => exists name : string,
                  d !! "name" = Some (VStr name) /\ name ≠ "") records)
  /\ (forall (i : nat) (file : file_storage),
        file ∈ valid_files_of (files req) ->
        exists (fname name : string),
          filename file = Some fname
          /\ candidate_name_of (names req) i file = Ok name
          /\ name ≠ ""
          /\ ((forall provided : string,
                 (names req) !! i = Some provided -> strip provided = "") ->
              name = title (replace_char "-" " "
                              (replace_char "_" " " (splitext fname).1)))
          /\ (forall provided : string,
                (names req) !! i = Some provided -> strip provided ≠ "" ->
                name = strip provided)).
Proof.
  pose proof (valid_files_truthy (files req)) as Hvalid. split.
  - destruct (process_files_named E (names req) domain _ 0 s Hvalid)
      as (records & s' & Hrun & Hlen & Hrecords).
    exists records, s'. split; [done|]. split; [done|].
    apply Forall_forall. intros d Hd.
    apply list_elem_of_lookup in Hd as [j Hj].
    destruct (Hrecords j d Hj) as (f & name & _ & _ & Hname & Hne). by exists name.
  - intros i file Hfile. rewrite Forall_forall in Hvalid.
    pose proof (Hvalid file Hfile) as Hf.
    destruct (candidate_name_of_valid (names req) i file Hf) as (name & Hname & Hne).
    unfold file_truthy in Hf. destruct (filename file) as [fname|] eqn:Efn; [|done].
    exists fname, name. split; [done|]. split; [done|]. split; [done|].
    unfold candidate_name_of in Hname. rewrite Efn in Hname. split.
    + intros Hblank. destruct (names req !! i) as [provided|].
      * rewrite (Hblank provided eq_refl) in Hname. by injection Hname as <-.
      * by injection Hname as <-.
    + intros provided Hp Hstrip. rewrite Hp in Hname.
      apply truthy_str in Hstrip. rewrite Hstrip in Hname. by injection Hname as <-.
Qed.

(** The derived name of two file names; a directory in the file name is
    not part of the extension and stays. *)
Example derived_names :
  candidate_name_of [] 0 (FileStorage (Some "john_doe-cv.pdf") "") = Ok "John Doe Cv"
  /\ candidate_name_of ["  "; "Ann Lee "] 0 (FileStorage (Some "a.b.pdf") "") = Ok "A.B"
  /\ candidate_name_of ["  "; "Ann Lee "] 1 (FileStorage (Some "a.b.pdf") "") = Ok "Ann Lee"
  /\ candidate_name_of [] 0 (FileStorage (Some "cv/john_doe.pdf") "") = Ok "Cv/John Doe".
Proof. repeat split. Qed.

(** * Further properties of the ranking *)

Lemma sort_key_error (d : dict) (e : exn) :
  sort_key d = Raise e -> exn_type e = "TypeError" \/ exn_type e = "AttributeError".
Proof.
  unfold sort_key, neg, lower_attr.
  destruct (get d "score" (VFloat 0)); cbn [mbind result_bind];
    try (intros [= <-]; by left);
    (destruct (get d "name" (VStr "")); cbn [mbind result_bind];
     intros [= <-]; by right).
Qed.

Lemma sort_key_sortable (d : dict) (k : Q * string) : sort_key d = Ok k -> sortable d.
Proof.
  unfold sort_key, sortable, neg, lower_attr.
  destruct (get d "score" (VFloat 0)) eqn:Hs; cbn [mbind result_bind]; try done;
    (destruct (get d "name" (VStr "")) eqn:Hn; cbn [mbind result_bind]; try done;
     intros _; split; by eexists).
Qed.

Lemma keys_fail (σ : store) (cs : list ref) :
  Forall (fun c => is_Some (dicts σ !! c)) cs ->
  ~ candidates_ok σ cs ->
  exists e : exn,
    mapM (fun c => d ← load_dict c; k ← lift (sort_key d); mret (k, c)) cs σ
    = (Raise e, σ)
    /\ (exn_type e = "TypeError" \/ exn_type e = "AttributeError").
Proof.
  induction 1 as [|c cs [d Hc] _ IH]; intros Hbad.
  - destruct Hbad. constructor.
  - cbn [mapM]. rewrite M_bind_run, M_bind_run, (load_dict_run σ c d Hc).
    rewrite M_bind_run. unfold lift at 1.
    destruct (sort_key d) as [k|e] eqn:Hk.
    + rewrite M_ret_run, M_bind_run.
      destruct IH as (e & -> & He); [|by exists e].
      intros Hcs. apply Hbad. constructor; [|done].
      exists d. split; [done|]. by apply sort_key_sortable in Hk.
    + exists e. split; [done|]. by apply sort_key_error in Hk.
Qed.

(** X1: when a record of the list has a score that is no number, or a name
    that is no string, the ranking raises a [TypeError] or an
    [AttributeError] and has changed nothing: no rank is written, no list
    made. *)
Theorem get_domain_leaderboard_failure_atomic (σ : store) (r : ref) (cs : list ref) :
  lists σ !! r = Some cs ->
  Forall (fun c => is_Some (dicts σ !! c)) cs ->
  ~ candidates_ok σ cs ->
  exists e : exn,
    get_domain_leaderboard r σ = (Raise e, σ)
    /\ (exn_type e = "TypeError" \/ exn_type e = "AttributeError").
Proof.
  intros Hr Halloc Hbad. destruct (keys_fail σ cs Halloc Hbad) as (e & Hkeys & He).
  exists e. split; [|done]. unfold get_domain_leaderboard.
  by rewrite M_bind_run, (load_list_run σ r cs Hr), M_bind_run, Hkeys.
Qed.

Lemma bad_score_not_ok : ~ candidates_ok bad_score [0; 1]%nat.
Proof.
  intros H. apply Forall_cons in H as [_ H]. apply Forall_cons in H as [(d & Hd & Hs) _].
  injection Hd as <-. destruct Hs as [[q Hq] _]. done.
Qed.

Lemma get_domain_leaderboard_failure_atomic_witness :
  exists e : exn,
    get_domain_leaderboard 0%nat bad_score = (Raise e, bad_score)
    /\ (exn_type e = "TypeError" \/ exn_type e = "AttributeError").
Proof.
  apply (get_domain_leaderboard_failure_atomic bad_score 0%nat [0; 1]%nat).
  - reflexivity.
  - repeat constructor; by eexists.
  - apply bad_score_not_ok.
Defined.

Lemma key_le_antisym (a b : Q * string) :
  key_le a b /\ key_le b a <-> (a.1 == b.1)%Q /\ a.2 = b.2.
Proof.
  unfold key_le. split.
  - intros [[H1 | [H1 S1]] [H2 | [H2 S2]]]; try lra.
    split; [done|]. by apply String.leb_antisym.
  - intros [H ->]. split; right; (split; [lra | apply string_leb_refl]).
Qed.

Lemma same_key_tied (σ : store) (a c : ref) :
  same_key tuple_lt (key_of σ a) (key_of σ c) = tied σ a c.
Proof.
  apply eq_true_iff_eq. unfold same_key, tied.
  rewrite !andb_true_iff, !negb_true_iff, !tuple_lt_false.
  rewrite (and_comm (key_le (key_of σ c) (key_of σ a))), key_le_antisym.
  unfold key_of. cbn [fst snd]. rewrite Qeq_bool_iff.
  split.
  - intros [H ->]. split; [lra | apply String.eqb_refl].
  - intros [H Hn]. apply String.eqb_eq in Hn. split; [lra | done].
Qed.

Lemma filter_keyed {K A} (key : A -> K) (P : K -> bool) (l : list (K * A)) :
  Forall (fun p => p.1 = key p.2) l ->
  filter (fun c => P (key c) = true) l.*2 = (filter (fun p => P p.1 = true) l).*2.
Proof.
  induction 1 as [|[k c] l Hk _ IH]; [done|]. simpl in Hk. subst k.
  rewrite fmap_cons. cbn [snd]. rewrite !filter_cons. cbn [fst].
  destruct (decide (P (key c) = true)); by rewrite IH.
Qed.

(** X2: the sort is stable on the records: those that rank alike (equal
    scores, equal lower-cased names) stand in the returned list in the
    order they had in the list passed in. *)
Theorem get_domain_leaderboard_stable (σ : store) (r a : ref) (cs : list ref) :
  lists σ !! r = Some cs -> candidates_ok σ cs ->
  exists (r' : ref) (σ' : store) (ranked : list ref),
    get_domain_leaderboard r σ = (Ok r', σ')
    /\ lists σ' !! r' = Some ranked
    /\ filter (fun c => tied σ a c = true) ranked
       = filter (fun c => tied σ a c = true) cs.
Proof.
  intros Hr Hcs. eexists _, _, (ranking σ cs).
  split; [by apply get_domain_leaderboard_run|].
  split; [cbn [lists]; apply lookup_insert_eq|].
  destruct (keyed_insertion σ cs) as (Hkey & _ & ->).
  assert (forall l : list ref,
            filter (fun c => tied σ a c = true) l
            = filter (fun c => same_key tuple_lt (key_of σ a) (key_of σ c) = true) l)
    as Hsame.
  { intros l. apply list_filter_iff. intros c. by rewrite same_key_tied. }
  rewrite !Hsame.
  rewrite (filter_keyed (key_of σ) (same_key tuple_lt (key_of σ a)) _ Hkey).
  rewrite insertion_stable; [|intros x y z; apply tuple_le_trans].
  rewrite <- (filter_keyed (key_of σ) (same_key tuple_lt (key_of σ a))).
  - by rewrite <- list_fmap_compose, list_fmap_id.
  - by apply Forall_fmap, Forall_true.
Qed.

Lemma get_domain_leaderboard_stable_witness :
  exists (r' : ref) (σ' : store) (ranked : list ref),
    get_domain_leaderboard 0%nat with_ties = (Ok r', σ')
    /\ lists σ' !! r' = Some ranked
    /\ filter (fun c => tied with_ties 2%nat c = true) ranked
       = filter (fun c => tied with_ties 2%nat c = true) [0; 1; 2]%nat.
Proof.
  apply (get_domain_leaderboard_stable with_ties 0%nat 2%nat [0; 1; 2]%nat).
  - reflexivity.
  - unfold candidates_ok. repeat constructor;
      (eexists; split; [reflexivity | split; eexists; reflexivity]).
Defined.

(** X3: among distinct records, one with a higher score gets a smaller rank
    number than one with a lower score. *)
Theorem higher_score_ranks_first (σ : store) (r a b : ref) (cs : list ref) :
  lists σ !! r = Some cs -> candidates_ok σ cs -> NoDup cs ->
  a ∈ cs -> b ∈ cs -> (score_of σ b < score_of σ a)%Q ->
  exists (r' : ref) (σ' : store) (ra rb : Z),
    get_domain_leaderboard r σ = (Ok r', σ')
    /\ rank_of σ' a = Some (VInt ra)
    /\ rank_of σ' b = Some (VInt rb)
    /\ 1 <= ra < rb /\ rb <= Z.of_nat (length cs).
Proof.
  intros Hr Hcs Hnd Ha Hb Hlt.
  rewrite <- (ranking_Permutation σ cs) in Ha, Hb.
  apply list_elem_of_lookup in Ha as [i Hi]. apply list_elem_of_lookup in Hb as [j Hj].
  eexists _, _, (Z.of_nat i + 1), (Z.of_nat j + 1).
  split; [by apply get_domain_leaderboard_run|].
  split; [by apply ranked_rank|]. split; [by apply ranked_rank|].
  assert (j < length cs)%nat as Hjlen.
  { apply lookup_lt_Some in Hj. by rewrite ranking_Permutation in Hj. }
  destruct (Nat.lt_trichotomy i j) as [Hij | [-> | Hji]]; [lia| |].
  - rewrite Hi in Hj. injection Hj as ->. by apply Qlt_irrefl in Hlt.
  - pose proof (ranking_sorted σ cs j i b a Hji Hj Hi) as Hle.
    apply key_le_scores in Hle as [Hle _]. lra.
Qed.

Lemma higher_score_ranks_first_witness :
  exists (r' : ref) (σ' : store) (ra rb : Z),
    get_domain_leaderboard 0%nat scenario = (Ok r', σ')
    /\ rank_of σ' 2%nat = Some (VInt ra)
    /\ rank_of σ' 0%nat = Some (VInt rb)
    /\ 1 <= ra < rb /\ rb <= 3.
Proof.
  apply (higher_score_ranks_first scenario 0%nat 2%nat 0%nat [0; 1; 2]%nat).
  - reflexivity.
  - apply scenario_ok.
  - compute_done.
  - set_solver.
  - set_solver.
  - reflexivity.
Defined.

Lemma with_ranks_twice (m : gmap ref (gmap string value)) (items : list (Z * ref)) :
  NoDup items.*2 -> with_ranks (with_ranks m items) items = with_ranks m items.
Proof.
  intros Hnd. apply map_eq. intros c.
  destruct (decide (c ∈ items.*2)) as [Hc|Hc].
  - apply list_elem_of_fmap in Hc as [[z c'] [-> Hc]]. cbn [snd].
    apply list_elem_of_lookup in Hc as [i Hi].
    rewrite (with_ranks_rank _ items i z c' Hnd Hi).
    rewrite (with_ranks_rank m items i z c' Hnd Hi).
    destruct (m !! c'); simpl; [|done]. by rewrite insert_insert_eq.
  - by rewrite !with_ranks_other.
Qed.

(** X4: ranking the returned list once more changes no record: each of the
    distinct records keeps the rank it had. *)
Theorem reranking_changes_no_record (σ : store) (r : ref) (cs : list ref) :
  lists σ !! r = Some cs -> candidates_ok σ cs -> NoDup cs ->
  exists (r1 r2 : ref) (σ1 σ2 : store),
    get_domain_leaderboard r σ = (Ok r1, σ1)
    /\ get_domain_leaderboard r1 σ1 = (Ok r2, σ2)
    /\ dicts σ2 = dicts σ1.
Proof.
  intros Hr Hcs Hnd.
  set (r1 := fresh (dom (lists σ))).
  set (σ1 := Store (with_ranks (dicts σ) (enumerate (ranking σ cs) 1))
                   (<[r1 := ranking σ cs]> (lists σ))).
  assert (lists σ1 !! r1 = Some (ranking σ cs)) as Hr1
    by (cbn [lists σ1]; apply lookup_insert_eq).
  assert (candidates_ok σ1 (ranking σ cs)) as Hok.
  { apply ranked_store_ok. unfold candidates_ok. by rewrite ranking_Permutation. }
  assert (ranking σ1 (ranking σ cs) = ranking σ cs) as Hsame.
  { rewrite (ranking_frame σ σ1); [apply ranking_idempotent|].
    intros c k Hk. by apply ranked_store_field. }
  eexists r1, _, σ1, _.
  split; [by apply get_domain_leaderboard_run|].
  split; [by apply get_domain_leaderboard_run|].
  cbn [dicts]. rewrite Hsame. cbn [dicts σ1]. apply with_ranks_twice.
  by rewrite enumerate_snd, ranking_Permutation.
Qed.

Lemma reranking_changes_no_record_witness :
  exists (r1 r2 : ref) (σ1 σ2 : store),
    get_domain_leaderboard 0%nat scenario = (Ok r1, σ1)
    /\ get_domain_leaderboard r1 σ1 = (Ok r2, σ2)
    /\ dicts σ2 = dicts σ1.
Proof.
  apply (reranking_changes_no_record scenario 0%nat [0; 1; 2]%nat).
  - reflexivity.
  - apply scenario_ok.
  - compute_done.
Defined.

(** * Further properties of the summary *)

Lemma load_dicts_state (σ : store) (cs : list ref) : (mapM load_dict cs σ).2 = σ.
Proof.
  induction cs as [|c cs IH]; [done|].
  cbn [mapM]. rewrite M_bind_run. unfold load_dict at 1.
  destruct (dicts σ !! c) as [d|]; [|done].
  rewrite M_bind_run. destruct (mapM load_dict cs σ) as [[ds|e] σ']; by simpl in *.
Qed.

Lemma summary_keeps_store {arith : float_arithmetic} (σ : store) (r : ref) :
  (build_leaderboard_summary r σ).2 = σ.
Proof.
  unfold build_leaderboard_summary. rewrite M_bind_run. unfold load_list at 1.
  destruct (lists σ !! r) as [cs|]; [|done].
  destruct (truthy_list cs); cbn [negb]; [|done].
  rewrite M_bind_run. pose proof (load_dicts_state σ cs) as Hσ.
  destruct (mapM load_dict cs σ) as [[ds|e] σ']; simpl in Hσ; subst σ'; [|done].
  cbv zeta. rewrite M_bind_run. unfold lift at 1.
  destruct (sum _) as [total|e]; [|done].
  rewrite M_bind_run. unfold lift at 1.
  destruct (truediv _ _) as [mean|e]; [|done].
  rewrite M_bind_run. unfold lift at 1.
  destruct (round _ _) as [avg|e]; [|done].
  rewrite M_bind_run. unfold lift at 1.
  destruct (foldl _ _ _) as [dist|e]; [|done].
  rewrite M_bind_run. unfold lift at 1.
  destruct (index0 ds) as [first|e]; done.
Qed.

(** X5: the summary reads only; whatever it returns or raises, it leaves
    every list and every record as it was. *)
Theorem build_leaderboard_summary_reads_only {arith : float_arithmetic}
    (σ : store) (r : ref) :
  (build_leaderboard_summary r σ).2 = σ
  /\ (forall (v : value) (σ' : store),
        build_leaderboard_summary r σ = (Ok v, σ') -> σ' = σ)
  /\ (forall (e : exn) (σ' : store),
        build_leaderboard_summary r σ = (Raise e, σ') -> σ' = σ).
Proof.
  pose proof (summary_keeps_store σ r) as H.
  split; [done|]. split; intros x σ' Hrun; by rewrite Hrun in H.
Qed.

Lemma tier_total_Permutation (σ : store) (tier : string) (cs cs' : list ref) :
  cs ≡ₚ cs' -> tier_total σ tier cs = tier_total σ tier cs'.
Proof.
  unfold tier_total.
  induction 1 as [|c cs cs' _ IH|a b cs|cs1 cs2 cs3 _ IH1 _ IH2];
    cbn [fmap list_fmap foldr] in *; lia.
Qed.

Lemma Forall_Permutation_ok (σ : store) (cs cs' : list ref) :
  cs ≡ₚ cs' -> summary_ok σ cs -> summary_ok σ cs'.
Proof. unfold summary_ok. by intros ->. Qed.

(** X6: the count and the tier sums of the summary do not depend on the
    order of the list.  The top candidate, the first of the list, does, and
    so may the average, which the interpreter computes over the scores in
    the order of the list. *)
Theorem summary_independent_of_order {arith : float_arithmetic} (σ : store)
    (r r' c0 c0' : ref) (cs cs' : list ref) (avg avg' : value) :
  lists σ !! r = Some (c0 :: cs) -> lists σ !! r' = Some (c0' :: cs') ->
  c0 :: cs ≡ₚ c0' :: cs' -> summary_ok σ (c0 :: cs) ->
  average (scores_of σ (c0 :: cs)) = Ok avg ->
  average (scores_of σ (c0' :: cs')) = Ok avg' ->
  exists (n : Z) (dist : dict),
    build_leaderboard_summary r σ
    = (Ok (VDict {[ "total_candidates" := VInt n;
                    "top_candidate" := default VNone (field σ c0 "name");
                    "average_score" := avg;
                    "score_distribution" := VDict dist ]}), σ)
    /\ build_leaderboard_summary r' σ
       = (Ok (VDict {[ "total_candidates" := VInt n;
                       "top_candidate" := default VNone (field σ c0' "name");
                       "average_score" := avg';
                       "score_distribution" := VDict dist ]}), σ).
Proof.
  intros Hr Hr' Hperm Hok Havg Havg'. eexists _, _.
  split; [by apply summary_run|].
  rewrite (summary_run σ r' c0' cs' avg' Hr'
             (Forall_Permutation_ok σ _ _ Hperm Hok) Havg').
  rewrite <- (Permutation_length Hperm).
  by rewrite <- !(tier_total_Permutation σ _ _ _ Hperm).
Qed.

Lemma summary_independent_of_order_witness :
  exists (n : Z) (dist : dict),
    build_leaderboard_summary (arith := exact_arithmetic) 0%nat two_orders
    = (Ok (VDict {[ "total_candidates" := VInt n;
                    "top_candidate" := VStr "Alice";
                    "average_score" := VFloat (175000 # 10000);
                    "score_distribution" := VDict dist ]}), two_orders)
    /\ build_leaderboard_summary (arith := exact_arithmetic) 1%nat two_orders
       = (Ok (VDict {[ "total_candidates" := VInt n;
                       "top_candidate" := VStr "Bob";
                       "average_score" := VFloat (175000 # 10000);
                       "score_distribution" := VDict dist ]}), two_orders).
Proof.
  apply (summary_independent_of_order (arith := exact_arithmetic)
           two_orders 0%nat 1%nat 0%nat 1%nat [1%nat] [0%nat]).
  - reflexivity.
  - reflexivity.
  - apply Permutation_swap.
  - apply ranked_pair_ok.
  - reflexivity.
  - reflexivity.
Defined.

(** * Ranking, then summary *)

Lemma ranked_store_summary_ok (σ : store) (items : list (Z * ref))
    (ls : gmap ref (list ref)) (cs : list ref) :
  summary_ok σ cs -> summary_ok (Store (with_ranks (dicts σ) items) ls) cs.
Proof.
  unfold summary_ok. intros Hcs. eapply Forall_impl; [exact Hcs|].
  intros c (d & Hd & Hs). cbn [dicts].
  destruct (proj2 (with_ranks_alloc (dicts σ) items c)) as [d' Hd']; [by rewrite Hd|].
  exists d'. split; [done|].
  assert (forall k, k ≠ "rank" -> d' !! k = d !! k) as Hk.
  { intros k Hk. pose proof (with_ranks_field (dicts σ) items c k Hk) as E.
    by rewrite Hd, Hd' in E. }
  unfold summarisable, get in *. by rewrite !Hk.
Qed.

Lemma tier_total_frame (σ σ' : store) (tier : string) (cs : list ref) :
  (forall (c : ref) (k : string), k ≠ "rank" -> field σ' c k = field σ c k) ->
  tier_total σ' tier cs = tier_total σ tier cs.
Proof.
  intros H. unfold tier_total. f_equal. apply list_fmap_ext. intros _ c _.
  unfold tier_count. by rewrite H.
Qed.

Lemma scores_frame (σ σ' : store) (cs : list ref) :
  (forall (c : ref) (k : string), k ≠ "rank" -> field σ' c k = field σ c k) ->
  scores_of σ' cs = scores_of σ cs.
Proof.
  intros H. apply list_fmap_ext. intros _ c _. by rewrite H.
Qed.

(** X8: the summary of the list that the ranking returns has the count and
    the tier sums of the list that was passed in, as its average what the
    interpreter computes over the scores in ranked order, and as its top
    candidate the name of a record of the list that no other record beats
    on score. *)
Theorem summary_after_ranking {arith : float_arithmetic} (σ : store) (r c : ref)
    (cs : list ref) :
  lists σ !! r = Some (c :: cs) ->
  candidates_ok σ (c :: cs) -> summary_ok σ (c :: cs) ->
  exists (r1 : ref) (σ1 : store) (top : ref) (rest : list ref),
    get_domain_leaderboard r σ = (Ok r1, σ1)
    /\ lists σ1 !! r1 = Some (top :: rest)
    /\ top :: rest ≡ₚ c :: cs
    /\ (forall avg : value,
          average (scores_of σ (top :: rest)) = Ok avg ->
          build_leaderboard_summary r1 σ1
          = (Ok (VDict
                   {[ "total_candidates" := VInt (Z.of_nat (length (c :: cs)));
                      "top_candidate" := default VNone (field σ top "name");
                      "average_score" := avg;
                      "score_distribution" :=
                        VDict (tiers (tier_total σ "total_strong_skills" (c :: cs))
                                     (tier_total σ "total_medium_skills" (c :: cs))
                                     (tier_total σ "total_weak_skills" (c :: cs))) ]}),
             σ1))
    /\ (forall c' : ref, c' ∈ c :: cs -> (score_of σ c' <= score_of σ top)%Q).
Proof.
  intros Hr Hcs Hok.
  pose proof (ranking_Permutation σ (c :: cs)) as Hperm.
  destruct (ranking σ (c :: cs)) as [|top rest] eqn:Hrank.
  { apply Permutation_length in Hperm. done. }
  set (r1 := fresh (dom (lists σ))).
  set (σ1 := Store (with_ranks (dicts σ) (enumerate (top :: rest) 1))
                   (<[r1 := top :: rest]> (lists σ))).
  assert (forall (c' : ref) (k : string), k ≠ "rank" -> field σ1 c' k = field σ c' k)
    as Hframe by (intros c' k Hk; by apply ranked_store_field).
  exists r1, σ1, top, rest.
  split; [by rewrite (get_domain_leaderboard_run σ r (c :: cs) Hr Hcs), Hrank|].
  split; [cbn [lists σ1]; apply lookup_insert_eq|].
  split; [done|]. split.
  - intros avg Havg. rewrite (summary_run σ1 r1 top rest avg).
    + rewrite (Hframe top "name") by done.
      rewrite !(tier_total_frame σ σ1 _ _ Hframe).
      by rewrite !(tier_total_Permutation σ _ _ _ Hperm), (Permutation_length Hperm).
    + cbn [lists σ1]. apply lookup_insert_eq.
    + apply ranked_store_summary_ok. by apply (Forall_Permutation_ok σ (c :: cs)).
    + by rewrite (scores_frame σ σ1 _ Hframe).
  - intros c' Hc'. rewrite <- Hperm in Hc'.
    apply elem_of_cons in Hc' as [->|Hc']; [lra|].
    apply list_elem_of_lookup in Hc' as [j Hj].
    assert (key_le (key_of σ top) (key_of σ c')) as Hle.
    { apply (ranking_sorted σ (c :: cs) 0 (Datatypes.S j)); [lia| |]; by rewrite Hrank. }
    by apply key_le_scores in Hle as [Hle _].
Qed.

Lemma summary_after_ranking_witness :
  exists (r1 : ref) (σ1 : store) (top : ref) (rest : list ref),
    get_domain_leaderboard 1%nat two_orders = (Ok r1, σ1)
    /\ lists σ1 !! r1 = Some (top :: rest)
    /\ top :: rest ≡ₚ [1; 0]%nat
    /\ (forall avg : value,
          average (arith := exact_arithmetic) (scores_of two_orders (top :: rest)) = Ok avg ->
          build_leaderboard_summary (arith := exact_arithmetic) r1 σ1
          = (Ok (VDict
                   {[ "total_candidates" := VInt 2;
                      "top_candidate" := default VNone (field two_orders top "name");
                      "average_score" := avg;
                      "score_distribution" := VDict (tiers 3 1 4) ]}),
             σ1))
    /\ (forall c' : ref, c' ∈ [1; 0]%nat ->
          (score_of two_orders c' <= score_of two_orders top)%Q).
Proof.
  apply (summary_after_ranking (arith := exact_arithmetic) two_orders 1%nat 1%nat [0%nat]).
  - reflexivity.
  - unfold candidates_ok. repeat constructor;
      (eexists; split; [reflexivity | split; eexists; reflexivity]).
  - apply (Forall_Permutation_ok two_orders [0; 1]%nat); [apply Permutation_swap|].
    apply ranked_pair_ok.
Defined.

(** * Further properties of the resume processor *)

Lemma calls_bind {S A B} (E : env S) (m : prog A) (f : A -> prog B) (s : S) :
  calls E (m ≫= f) s
  = calls E m s ++ match run E m s with
                   | (Ok a, s') => calls E (f a) s'
                   | (Raise _, _) => []
                   end.
Proof.
  revert s. induction m as [a|e|c k IH]; intros s; try done.
  change (calls E (Call c (fun r => k r ≫= f)) s
          = calls E (Call c k) s ++ match run E (Call c k) s with
                                    | (Ok a, s') => calls E (f a) s'
                                    | (Raise _, _) => []
                                    end).
  cbn [calls run]. destruct (E c s) as [r s']. by rewrite IH.
Qed.

Lemma calls_try_except_ret {S A} (E : env S) (body : prog A) (f : exn -> A) (s : S) :
  calls E (try_except body (fun e => Ret (f e))) s = calls E body s.
Proof.
  revert s. induction body as [a|e|c k IH]; intros s; try done.
  cbn [try_except calls]. destruct (E c s) as [r s']. by rewrite IH.
Qed.

Lemma calls_invoke {S} (E : env S) (c : call) (s : S) :
  calls E (invoke c) s = [(c, (E c s).1)].
Proof. unfold invoke. cbn [calls]. by destruct (E c s) as [[v|e] s']. Qed.

Lemma calls_of_result {S A} (E : env S) (r : result A) (s : S) :
  calls E (of_result r) s = [].
Proof. by destruct r. Qed.

(** Closes the facts about a trace that is a list given in full. *)
Ltac trace_case :=
  cbv zeta; simpl;
  repeat split;
  first [ by eexists
        | by (intros; simplify_eq/=)
        | by (intros; simplify_eq/=; congruence)
        | solve [ let i := fresh "i" in
                  intros i ?; repeat (first [done | destruct i as [|i]; simpl]) ] ].

(** Closes the cases of a run whose trace and result are given in full. *)
Ltac outcome_case :=
  repeat match goal with
         | |- _ /\ _ => split
         | |- forall _, _ => intro
         end;
  simpl in *; simplify_eq/=;
  repeat match goal with
         | H : ?l !! ?i = Some _ |- _ => is_var i; destruct i; simplify_eq/=
         end;
  try done; try congruence.

(** C4: [_process_single_resume] always returns a record and never raises.
    When a collaborator raises, the record is the degraded one of the
    exception raised; when the extracted text is empty, that of the
    [ValueError] for an empty PDF; when the scoring lacks an entry, that of
    the exception of the first entry it lacks.  The degraded record has
    score 0.0, weighted sum 0.0, no skills counted, empty metrics and
    skills, a recruiter note starting with "Processing failed" and the
    failure message under [error]; a record has the [error] field exactly
    when one of these steps failed. *)
Theorem process_single_resume_total {S : Type} (E : env S) (s : S)
    (file : file_storage) (candidate_name domain : string) :
  exists (record : dict) (s' : S),
    let trace := calls E (_process_single_resume file candidate_name domain) s in
    run E (_process_single_resume file candidate_name domain) s = (Ok record, s')
    /\ (forall (i : nat) (c : call) (e : exn),
          trace !! i = Some (c, Raise e) -> record = failure_record candidate_name e)
    /\ (forall (raw_text : value) (s1 : S),
          E (pdf_extract file) s = (Ok raw_text, s1) -> truthy raw_text = false ->
          record = failure_record candidate_name
                     (ValueError "Empty PDF — could not extract text."))
    /\ (forall (scoring : value) (e : exn),
          trace.*2 !! 4%nat = Some (Ok scoring) ->
          (forall (i : nat) (c : call) (e' : exn), trace !! i ≠ Some (c, Raise e')) ->
          scoring_error scoring = Some e ->
          record = failure_record candidate_name e)
    /\ (forall e : exn, degraded candidate_name e (failure_record candidate_name e))
    /\ (is_Some (record !! "error") <-> step_failed trace).
Proof.
  assert (forall e, degraded candidate_name e (failure_record candidate_name e)) as Hdeg.
  { intros e. repeat (split; [reflexivity|]). split; [|reflexivity].
    eexists. split; [reflexivity|]. split; reflexivity. }
  assert (forall e, is_Some (failure_record candidate_name e !! "error")) as Herr
    by (by eexists).
  unfold _process_single_resume. rewrite run_try_except, calls_try_except_ret.
  unfold process_steps.
  rewrite calls_bind, run_bind, run_invoke, calls_invoke.
  destruct (E (pdf_extract file) s) as [[raw|e1] s1] eqn:E1; cbn [fst].
  2: { eexists _, _. cbv zeta. split; [reflexivity|].
       do 3 (split; [outcome_case|]). split; [done|].
       split; [intros _; left; by exists 0%nat, (pdf_extract file), e1 | done]. }
  destruct (truthy raw) eqn:Hraw; cbn [negb].
  2: { eexists _, _. cbv zeta. split; [reflexivity|].
       do 3 (split; [outcome_case|]). split; [done|].
       split; [intros _; right; left; by exists raw | done]. }
  rewrite calls_bind, run_bind, run_invoke, calls_invoke.
  destruct (E (list_to_json raw) s1) as [[structured|e2] s2] eqn:E2; cbn [fst].
  2: { eexists _, _. cbv zeta. split; [reflexivity|].
       do 3 (split; [outcome_case|]). split; [done|].
       split; [intros _; left; by exists 1%nat, (list_to_json raw), e2 | done]. }
  rewrite calls_bind, run_bind, run_invoke, calls_invoke.
  destruct (E (extract_skill_from_resume structured) s2) as [[skills|e3] s3] eqn:E3;
    cbn [fst].
  2: { eexists _, _. cbv zeta. split; [reflexivity|].
       do 3 (split; [outcome_case|]). split; [done|].
       split; [intros _; left; by exists 2%nat, (extract_skill_from_resume structured), e3
              | done]. }
  rewrite calls_bind, run_bind, run_invoke, calls_invoke.
  destruct (E (generate_analysis_metrics skills) s3) as [[metrics|e4] s4] eqn:E4;
    cbn [fst].
  2: { eexists _, _. cbv zeta. split; [reflexivity|].
       do 3 (split; [outcome_case|]). split; [done|].
       split; [intros _; left; by exists 3%nat, (generate_analysis_metrics skills), e4
              | done]. }
  rewrite calls_bind, run_bind, run_invoke, calls_invoke.
  destruct (E (calculate_skill_strength metrics) s4) as [[scoring|e5] s5] eqn:E5;
    cbn [fst].
  2: { eexists _, _. cbv zeta. split; [reflexivity|].
       do 3 (split; [outcome_case|]). split; [done|].
       split; [intros _; left; by exists 4%nat, (calculate_skill_strength metrics), e5
              | done]. }
  rewrite calls_bind, run_bind, run_of_result, calls_of_result.
  destruct (subscript scoring "skill_strength_score") as [score|e6] eqn:E6.
  2: { eexists _, _. cbv zeta. split; [reflexivity|].
       assert (scoring_error scoring = Some e6) as Hse
         by (unfold scoring_error; by rewrite E6).
       do 3 (split; [outcome_case|]). split; [done|].
       split; [intros _; right; right; exists scoring; by rewrite Hse | done]. }
  rewrite calls_bind, run_bind, run_invoke, calls_invoke.
  destruct (E (get_recruiter_note candidate_name domain skills score) s5)
    as [[note|e7] s6] eqn:E7; cbn [fst].
  2: { eexists _, _. cbv zeta. split; [reflexivity|].
       split; [outcome_case|]. split; [outcome_case|].
       split; [intros scoring' e _ Hno _;
               by destruct (Hno 5%nat (get_recruiter_note candidate_name domain skills score)
                              e7)|].
       split; [done|].
       split; [intros _; left;
               by exists 5%nat, (get_recruiter_note candidate_name domain skills score), e7
              | done]. }
  rewrite calls_bind, run_bind, run_of_result, calls_of_result.
  destruct (subscript scoring "weighted_sum") as [weighted_sum|e8] eqn:E8.
  2: { eexists _, _. cbv zeta. split; [reflexivity|].
       assert (scoring_error scoring = Some e8) as Hse
         by (unfold scoring_error; by rewrite E6, E8).
       do 3 (split; [outcome_case|]). split; [done|].
       split; [intros _; right; right; exists scoring; by rewrite Hse | done]. }
  rewrite calls_bind, run_bind, run_of_result, calls_of_result.
  destruct (subscript scoring "net_skills") as [net_skills|e9] eqn:E9.
  2: { eexists _, _. cbv zeta. split; [reflexivity|].
       assert (scoring_error scoring = Some e9) as Hse
         by (unfold scoring_error; by rewrite E6, E8, E9).
       do 3 (split; [outcome_case|]). split; [done|].
       split; [intros _; right; right; exists scoring; by rewrite Hse | done]. }
  assert (scoring_error scoring = None) as Hse
    by (unfold scoring_error; by rewrite E6, E8, E9).
  eexists _, _. cbv zeta. split; [reflexivity|].
  do 3 (split; [outcome_case|]). split; [done|]. split.
  - intros [v Hv]. by vm_compute in Hv.
  - intros [(i & c & e & Hi) | [(raw' & Hr & Ht) | (scoring' & Hs & Hsome)]].
    + outcome_case.
    + outcome_case.
    + simpl in Hs. simplify_eq. rewrite Hse in Hsome. by destruct Hsome.
Qed.

Lemma process_single_resume_total_witness :
  let file := FileStorage (Some "eve.pdf") "%PDF eve" in
  exists (record : dict) (s' : nat),
    let trace := calls sample_env (_process_single_resume file "Eve" "Data") 0%nat in
    run sample_env (_process_single_resume file "Eve" "Data") 0%nat = (Ok record, s')
    /\ (forall (i : nat) (c : call) (e : exn),
          trace !! i = Some (c, Raise e) -> record = failure_record "Eve" e)
    /\ (forall (raw_text : value) (s1 : nat),
          sample_env (pdf_extract file) 0%nat = (Ok raw_text, s1) ->
          truthy raw_text = false ->
          record = failure_record "Eve" (ValueError "Empty PDF — could not extract text."))
    /\ (forall (scoring : value) (e : exn),
          trace.*2 !! 4%nat = Some (Ok scoring) ->
          (forall (i : nat) (c : call) (e' : exn), trace !! i ≠ Some (c, Raise e')) ->
          scoring_error scoring = Some e ->
          record = failure_record "Eve" e)
    /\ (forall e : exn, degraded "Eve" e (failure_record "Eve" e))
    /\ (is_Some (record !! "error") <-> step_failed trace).
Proof.
  apply (process_single_resume_total sample_env 0%nat
           (FileStorage (Some "eve.pdf") "%PDF eve") "Eve" "Data").
Defined.

(** X9: the processor calls the collaborators in pipeline order, each at
    most once and each with the answers of the ones before; a call that
    raises is the last one, and so is the extraction when the text it
    returns is empty. *)
Theorem pipeline_calls_in_order {S : Type} (E : env S) (s : S) (file : file_storage)
    (candidate_name domain : string) :
  exists raw structured skills metrics score : value,
    let trace := calls E (_process_single_resume file candidate_name domain) s in
    trace.*1 `prefix_of`
      [pdf_extract file; list_to_json raw; extract_skill_from_resume structured;
       generate_analysis_metrics skills; calculate_skill_strength metrics;
       get_recruiter_note candidate_name domain skills score]
    /\ (forall v, trace.*2 !! 0%nat = Some (Ok v) -> v = raw)
    /\ (forall v, trace.*2 !! 1%nat = Some (Ok v) -> v = structured)
    /\ (forall v, trace.*2 !! 2%nat = Some (Ok v) -> v = skills)
    /\ (forall v, trace.*2 !! 3%nat = Some (Ok v) -> v = metrics)
    /\ (forall v, trace.*2 !! 4%nat = Some (Ok v) -> length trace = 6%nat ->
          subscript v "skill_strength_score" = Ok score)
    /\ (forall (i : nat) (e : exn),
          trace.*2 !! i = Some (Raise e) -> length trace = Datatypes.S i)
    /\ (forall v, trace.*2 !! 0%nat = Some (Ok v) -> truthy v = false ->
          length trace = 1%nat).
Proof.
  unfold _process_single_resume. rewrite calls_try_except_ret. unfold process_steps.
  rewrite calls_bind, run_invoke, calls_invoke.
  destruct (E (pdf_extract file) s) as [[raw|e1] s1] eqn:E1; cbn [fst];
    [|exists VNone, VNone, VNone, VNone, VNone; trace_case].
  destruct (truthy raw) eqn:Hraw; cbn [negb];
    [|exists raw, VNone, VNone, VNone, VNone; trace_case].
  rewrite calls_bind, run_invoke, calls_invoke.
  destruct (E (list_to_json raw) s1) as [[structured|e2] s2] eqn:E2; cbn [fst];
    [|exists raw, VNone, VNone, VNone, VNone; trace_case].
  rewrite calls_bind, run_invoke, calls_invoke.
  destruct (E (extract_skill_from_resume structured) s2) as [[skills|e3] s3] eqn:E3;
    cbn [fst]; [|exists raw, structured, VNone, VNone, VNone; trace_case].
  rewrite calls_bind, run_invoke, calls_invoke.
  destruct (E (generate_analysis_metrics skills) s3) as [[metrics|e4] s4] eqn:E4;
    cbn [fst]; [|exists raw, structured, skills, VNone, VNone; trace_case].
  rewrite calls_bind, run_invoke, calls_invoke.
  destruct (E (calculate_skill_strength metrics) s4) as [[scoring|e5] s5] eqn:E5;
    cbn [fst]; [|exists raw, structured, skills, metrics, VNone; trace_case].
  rewrite calls_bind, run_of_result, calls_of_result.
  destruct (subscript scoring "skill_strength_score") as [score|e6] eqn:E6;
    [|exists raw, structured, skills, metrics, VNone; trace_case].
  rewrite calls_bind, run_invoke, calls_invoke.
  exists raw, structured, skills, metrics, score.
  destruct (E (get_recruiter_note candidate_name domain skills score) s5)
    as [[note|e7] s6] eqn:E7; cbn [fst]; [|trace_case].
  rewrite calls_bind, run_of_result, calls_of_result.
  destruct (subscript scoring "weighted_sum") as [weighted_sum|e8]; [|trace_case].
  rewrite calls_bind, run_of_result, calls_of_result.
  destruct (subscript scoring "net_skills") as [net_skills|e9]; trace_case.
Qed.

(** X10: when the text is not empty, every collaborator answers and the
    scoring holds its three entries, the record is made of the candidate's
    name, the three entries of the scoring, the metrics, the skills and the
    note, and has no [error]; the note generator was asked with the name,
    the domain, the skills and the score. *)
Theorem process_single_resume_success {S : Type} (E : env S)
    (s s1 s2 s3 s4 s5 s6 : S) (file : file_storage) (candidate_name domain : string)
    (raw structured skills metrics scoring score weighted_sum net_skills note : value) :
  E (pdf_extract file) s = (Ok raw, s1) -> truthy raw = true ->
  E (list_to_json raw) s1 = (Ok structured, s2) ->
  E (extract_skill_from_resume structured) s2 = (Ok skills, s3) ->
  E (generate_analysis_metrics skills) s3 = (Ok metrics, s4) ->
  E (calculate_skill_strength metrics) s4 = (Ok scoring, s5) ->
  subscript scoring "skill_strength_score" = Ok score ->
  subscript scoring "weighted_sum" = Ok weighted_sum ->
  subscript scoring "net_skills" = Ok net_skills ->
  E (get_recruiter_note candidate_name domain skills score) s5 = (Ok note, s6) ->
  run E (_process_single_resume file candidate_name domain) s
  = (Ok {[ "name" := VStr candidate_name;
           "score" := score;
           "weighted_sum" := weighted_sum;
           "net_skills" := net_skills;
           "metrics" := metrics;
           "skills" := skills;
           "recruiter_note" := note ]}, s6).
Proof.
  intros E1 Hraw E2 E3 E4 E5 Hscore Hsum Hnet E6.
  unfold _process_single_resume. rewrite run_try_except. unfold process_steps.
  rewrite run_bind, run_invoke, E1, Hraw. cbn [negb].
  rewrite run_bind, run_invoke, E2, run_bind, run_invoke, E3.
  rewrite run_bind, run_invoke, E4, run_bind, run_invoke, E5.
  rewrite run_bind, run_of_result, Hscore, run_bind, run_invoke, E6.
  by rewrite run_bind, run_of_result, Hsum, run_bind, run_of_result, Hnet.
Qed.

Lemma process_single_resume_success_witness :
  run sample_env
      (_process_single_resume (FileStorage (Some "dan.pdf") "%PDF dan") "Dan" "Data") 0%nat
  = (Ok {[ "name" := VStr "Dan";
           "score" := VFloat 15;
           "weighted_sum" := VFloat (3 # 2);
           "net_skills" := VInt 1;
           "metrics" := VDict {[ "total_strong_skills" := VInt 1 ]};
           "skills" := VDict {[ "languages" := VList [VStr "python"] ]};
           "recruiter_note" := VStr "A note on Dan" ]}, 1%nat).
Proof.
  apply (process_single_resume_success sample_env 0%nat 0%nat 0%nat 0%nat 0%nat 0%nat 1%nat
           (FileStorage (Some "dan.pdf") "%PDF dan") "Dan" "Data"
           (VStr "%PDF dan") (VList [VStr "%PDF dan"])
           (VDict {[ "languages" := VList [VStr "python"] ]})
           (VDict {[ "total_strong_skills" := VInt 1 ]})
           (VDict {[ "skill_strength_score" := VFloat 15;
                     "weighted_sum" := VFloat (3 # 2);
                     "net_skills" := VInt 1 ]}));
    reflexivity.
Defined.

(** * Further properties of the leaderboard endpoint *)

(** X11: the records come in the order of the valid files, one for each, and
    the [j]-th of them is named from the [j]-th provided name: the provided
    names are matched to the files by position among the valid files, not
    among all the files of the upload. *)
Theorem names_follow_valid_files {S : Type} (E : env S) (s : S)
    (names : list string) (domain : string) (files : list file_storage) :
  exists (records : list dict) (s' : S),
    run E (process_files names domain 0 (valid_files_of files)) s = (Ok records, s')
    /\ length records = length (valid_files_of files)
    /\ (forall (j : nat) (d : dict),
          records !! j = Some d ->
          exists (f : file_storage) (name : string),
            valid_files_of files !! j = Some f
            /\ candidate_name_of names j f = Ok name
            /\ d !! "name" = Some (VStr name)).
Proof.
  destruct (process_files_named E names domain _ 0 s (valid_files_truthy files))
    as (records & s' & Hrun & Hlen & Hrecords).
  exists records, s'. split; [done|]. split; [done|].
  intros j d Hj. destruct (Hrecords j d Hj) as (f & name & Hf & Hname & Hd & _).
  by exists f, name.
Qed.

(** ** The shape of the names *)

Lemma map_string_get (f : ascii -> ascii) (s : string) (i : nat) :
  String.get i (map_string f s) = f <$> String.get i s.
Proof.
  revert i. induction s as [|a s IH]; intros [|i]; simpl; try done; apply IH.
Qed.

Lemma map_string_length (f : ascii -> ascii) (s : string) :
  String.length (map_string f s) = String.length s.
Proof. induction s as [|a s IH]; simpl; [done | by rewrite IH]. Qed.

Lemma title_from_get (b : bool) (s : string) (i : nat) (x : ascii) :
  String.get i (title_from b s) = Some x ->
  exists y : ascii, String.get i s = Some y /\ (x = lower_char y \/ x = upper_char y).
Proof.
  revert b i. induction s as [|a s IH]; intros b [|i]; simpl; try done.
  - intros [= <-]. exists a. split; [done|]. destruct b; [by left | by right].
  - apply IH.
Qed.

Lemma title_from_length (b : bool) (s : string) :
  String.length (title_from b s) = String.length s.
Proof. revert b. induction s as [|a s IH]; intros b; simpl; [done | by rewrite IH]. Qed.

Lemma case_char_keeps_separators (y : ascii) :
  y ≠ "_"%char -> y ≠ "-"%char ->
  lower_char y ≠ "_"%char /\ lower_char y ≠ "-"%char
  /\ upper_char y ≠ "_"%char /\ upper_char y ≠ "-"%char.
Proof.
  destruct y as [[] [] [] [] [] [] [] []]; intros H1 H2;
    (repeat split; intros H; vm_compute in H; congruence).
Qed.

(** X12: a name made of the file name holds no underscore and no hyphen
    and, for a file name of ASCII characters, is as long as the file name
    without its extension. *)
Theorem derived_name_shape (names : list string) (i : nat) (file : file_storage)
    (fname : string) :
  filename file = Some fname ->
  (forall provided : string, names !! i = Some provided -> strip provided = "") ->
  exists name : string,
    candidate_name_of names i file = Ok name
    /\ (forall j : nat,
          String.get j name ≠ Some "_"%char /\ String.get j name ≠ Some "-"%char)
    /\ (ascii_only fname = true ->
        String.length name = String.length (splitext fname).1).
Proof.
  intros Hf Hblank.
  exists (title (replace_char "-" " " (replace_char "_" " " (splitext fname).1))).
  split; [|split].
  - unfold candidate_name_of. rewrite Hf.
    destruct (names !! i) as [provided|]; [|done]. by rewrite (Hblank provided eq_refl).
  - intros j. set (stem := (splitext fname).1).
    destruct (String.get j (title (replace_char "-" " " (replace_char "_" " " stem))))
      as [x|] eqn:Hx; [|done].
    apply title_from_get in Hx as (y & Hy & Hcase).
    unfold replace_char in Hy. rewrite !map_string_get in Hy.
    destruct (String.get j stem) as [a|]; [|done]. simpl in Hy. injection Hy as <-.
    set (y := if Ascii.eqb _ "-" then _ else _) in *.
    assert (y ≠ "_"%char /\ y ≠ "-"%char) as [H1 H2].
    { unfold y. destruct (Ascii.eqb_spec a "_") as [Ha|Ha]; [done|].
      destruct (Ascii.eqb_spec a "-") as [Ha'|Ha']; done. }
    destruct (case_char_keeps_separators y H1 H2) as (L1 & L2 & U1 & U2).
    destruct Hcase as [-> | ->]; split; congruence.
  - intros _. unfold title, replace_char.
    by rewrite title_from_length, !map_string_length.
Qed.

Lemma derived_name_shape_witness :
  exists name : string,
    candidate_name_of ["Eve"; " "] 1 (FileStorage (Some "dan_o-neil.pdf") "") = Ok name
    /\ (forall j : nat,
          String.get j name ≠ Some "_"%char /\ String.get j name ≠ Some "-"%char)
    /\ (ascii_only "dan_o-neil.pdf" = true ->
        String.length name = String.length (splitext "dan_o-neil.pdf").1).
Proof.
  apply (derived_name_shape ["Eve"; " "] 1 (FileStorage (Some "dan_o-neil.pdf") "")
           "dan_o-neil.pdf").
  - reflexivity.
  - intros provided [= <-]. reflexivity.
Defined.

Lemma rstrip_last (s : string) (c : ascii) :
  String.get (String.length (rstrip s) - 1) (rstrip s) = Some c -> is_space c = false.
Proof.
  induction s as [|a s IH]; simpl; [done|].
  destruct (rstrip s) as [|b r] eqn:Hr.
  - destruct (is_space a) eqn:Ha; simpl; [done|]. by intros [= <-].
  - simpl in *. by rewrite Nat.sub_0_r in *.
Qed.

Lemma rstrip_first (a : ascii) (s : string) :
  is_space a = false -> String.get 0 (rstrip (String a s)) = Some a.
Proof.
  intros Ha. simpl. destruct (rstrip s); [by rewrite Ha | done].
Qed.

Lemma lstrip_first (s : string) (c : ascii) :
  String.get 0 (lstrip s) = Some c -> is_space c = false.
Proof.
  induction s as [|a s IH]; simpl; [done|].
  destruct (is_space a) eqn:Ha; [done|]. simpl. by intros [= <-].
Qed.

(** X13: a provided name that is not blank is used without the white space
    around it: the candidate's name neither starts nor ends with a
    white-space character. *)
Theorem provided_name_stripped (names : list string) (i : nat) (file : file_storage)
    (provided : string) :
  names !! i = Some provided -> strip provided ≠ "" ->
  exists (name : string) (first last : ascii),
    candidate_name_of names i file = Ok name
    /\ name = strip provided
    /\ String.get 0 name = Some first /\ is_space first = false
    /\ String.get (String.length name - 1) name = Some last /\ is_space last = false.
Proof.
  intros Hp Hne. unfold candidate_name_of. rewrite Hp.
  apply truthy_str in Hne as Ht. rewrite Ht. clear Ht.
  unfold strip in *. destruct (lstrip provided) as [|a t] eqn:Hl; [done|].
  assert (is_space a = false) as Ha by (apply (lstrip_first provided); by rewrite Hl).
  destruct (String.get (String.length (rstrip (String a t)) - 1) (rstrip (String a t)))
    as [last|] eqn:Hlast.
  - exists (rstrip (String a t)), a, last.
    split; [by destruct (filename file)|]. split; [done|].
    split; [by apply rstrip_first|]. split; [done|]. split; [done|].
    by apply rstrip_last in Hlast.
  - exfalso. destruct (rstrip (String a t)) as [|b r] eqn:Hr; [done|].
    simpl in Hlast. rewrite Nat.sub_0_r in Hlast.
    clear -Hlast. revert b Hlast. induction r as [|x r IH]; intros b; simpl; [done|].
    apply IH.
Qed.

Lemma provided_name_stripped_witness :
  exists (name : string) (first last : ascii),
    candidate_name_of ["  Ann Lee "] 0 (FileStorage (Some "x.pdf") "") = Ok name
    /\ name = strip "  Ann Lee "
    /\ String.get 0 name = Some first /\ is_space first = false
    /\ String.get (String.length name - 1) name = Some last /\ is_space last = false.
Proof.
  apply (provided_name_stripped ["  Ann Lee "] 0 (FileStorage (Some "x.pdf") "")
           "  Ann Lee ").
  - reflexivity.
  - discriminate.
Defined.

(** ** The whole answer *)

Lemma new_dicts_run (records : list dict) (σ : store) :
  exists (cs : list ref) (σ' : store),
    mapM new_dict records σ = (Ok cs, σ')
    /\ lists σ' = lists σ
    /\ NoDup cs
    /\ Forall (fun c => dicts σ !! c = None) cs
    /\ Forall2 (fun c d => dicts σ' !! c = Some d) cs records
    /\ (forall c : ref, is_Some (dicts σ !! c) -> dicts σ' !! c = dicts σ !! c).
Proof.
  revert σ. induction records as [|d records IH]; intros σ.
  - exists [], σ. repeat split; try done; constructor.
  - set (c := fresh (dom (dicts σ))).
    assert (dicts σ !! c = None) as Hc by (apply not_elem_of_dom, is_fresh).
    destruct (IH (Store (<[c := d]> (dicts σ)) (lists σ)))
      as (cs & σ' & Hrun & Hlists & Hnd & Hfresh & Hall & Hkeep).
    cbn [dicts lists] in *.
    assert (dicts σ' !! c = Some d) as Hcd.
    { rewrite Hkeep; [apply lookup_insert_eq | by rewrite lookup_insert_eq]. }
    exists (c :: cs), σ'. cbn [mapM]. rewrite M_bind_run. unfold new_dict at 1.
    fold c. rewrite M_bind_run, Hrun.
    split; [done|]. split; [done|]. split; [|split; [|split]].
    + constructor; [|done]. intros Hin. rewrite Forall_forall in Hfresh.
      specialize (Hfresh c Hin). by rewrite lookup_insert_eq in Hfresh.
    + constructor; [done|]. eapply Forall_impl; [exact Hfresh|].
      intros c' Hc'. simpl in Hc'.
      destruct (decide (c = c')) as [<-|Hne]; [done|].
      by rewrite lookup_insert_ne in Hc'.
    + by constructor.
    + intros c' [d' Hc']. rewrite Hkeep.
      * rewrite lookup_insert_ne; [done|]. intros <-. congruence.
      * rewrite lookup_insert_ne; [by rewrite Hc'|]. intros <-. congruence.
Qed.

Lemma candidates_ok_or_not (σ : store) (cs : list ref) :
  Forall (fun c => is_Some (dicts σ !! c)) cs ->
  candidates_ok σ cs \/ ~ candidates_ok σ cs.
Proof.
  induction 1 as [|c cs [d Hc] _ [IH|IH]].
  - left. constructor.
  - destruct (sort_key d) as [k|e] eqn:Hk.
    + left. constructor; [|done]. exists d. split; [done|]. by apply sort_key_sortable in Hk.
    + right. intros Hok. apply Forall_cons in Hok as [(d' & Hd' & Hs) _].
      rewrite Hc in Hd'. injection Hd' as <-.
      by rewrite (sort_key_ok σ c d Hc Hs) in Hk.
  - right. intros Hok. apply Forall_cons in Hok as [_ Hok]. by apply IH.
Qed.

Lemma load_all (σ : store) (cs : list ref) :
  Forall (fun c => is_Some (dicts σ !! c)) cs ->
  exists ds : list dict, Forall2 (fun c d => dicts σ !! c = Some d) cs ds.
Proof.
  induction 1 as [|c cs [d Hc] _ [ds IH]].
  - by exists [].
  - exists (d :: ds). by constructor.
Qed.

(** What [rank_and_summarise] returns, when it returns: the records in
    ranked order, each with its position as rank. *)
Lemma rank_and_summarise_ok {arith : float_arithmetic} (records ranked : list dict)
    (summary : value) :
  rank_and_summarise records = Ok (ranked, summary) ->
  length ranked = length records
  /\ (forall (i : nat) (d : dict),
        ranked !! i = Some d ->
        exists d0 : dict,
          d0 ∈ records /\ d = <["rank" := VInt (Z.of_nat i + 1)]> d0).
Proof.
  unfold rank_and_summarise.
  destruct (new_dicts_run records Heap.empty)
    as (cs & σa & Hnew & Hlists & Hnd & _ & Hall & _).
  rewrite M_bind_run, Hnew, M_bind_run. unfold new_list at 1. cbv zeta.
  set (r := fresh (dom (lists σa))).
  set (σb := Store (dicts σa) (<[r := cs]> (lists σa))).
  assert (lists σb !! r = Some cs) as Hr by (cbn [lists σb]; apply lookup_insert_eq).
  assert (Forall (fun c => is_Some (dicts σb !! c)) cs) as Halloc.
  { apply Forall_forall. intros c Hc. cbn [dicts σb].
    apply list_elem_of_lookup in Hc as [i Hi].
    destruct (Forall2_lookup_l _ _ _ _ _ Hall Hi) as (d & _ & ->). by eexists. }
  rewrite M_bind_run.
  destruct (candidates_ok_or_not σb cs Halloc) as [Hok|Hbad].
  2: { destruct (keys_fail σb cs Halloc Hbad) as (e & Hkeys & _).
       unfold get_domain_leaderboard.
       by rewrite M_bind_run, (load_list_run σb r cs Hr), M_bind_run, Hkeys. }
  rewrite (get_domain_leaderboard_run σb r cs Hr Hok).
  set (r1 := fresh (dom (lists σb))).
  set (σ1 := Store (with_ranks (dicts σb) (enumerate (ranking σb cs) 1))
                   (<[r1 := ranking σb cs]> (lists σb))).
  rewrite M_bind_run. pose proof (summary_keeps_store σ1 r1) as Hkeep.
  destruct (build_leaderboard_summary r1 σ1) as [[summary'|e] σ1']; simpl in Hkeep;
    subst σ1'; [|done].
  rewrite M_bind_run, (load_list_run σ1 r1 (ranking σb cs))
    by (cbn [lists σ1]; apply lookup_insert_eq).
  assert (Forall (fun c => is_Some (dicts σ1 !! c)) (ranking σb cs)) as Halloc1.
  { rewrite ranking_Permutation. eapply Forall_impl; [exact Halloc|].
    intros c Hc. cbn [dicts σ1]. by apply with_ranks_alloc. }
  destruct (load_all σ1 _ Halloc1) as [ds Hds].
  rewrite M_bind_run, (load_dicts_run σ1 _ ds Hds), M_ret_run. cbn [fst].
  intros [= <- _]. split.
  - by rewrite <- (Forall2_length _ _ _ Hds), ranking_Permutation, (Forall2_length _ _ _ Hall).
  - intros i d Hi.
    destruct (Forall2_lookup_r _ _ _ _ _ Hds Hi) as (c & Hc & Hd).
    assert (c ∈ cs) as Hin.
    { rewrite <- (ranking_Permutation σb cs). by apply list_elem_of_lookup_2 in Hc. }
    apply list_elem_of_lookup in Hin as [j Hj].
    destruct (Forall2_lookup_l _ _ _ _ _ Hall Hj) as (d0 & Hd0 & Hcd0).
    exists d0. split; [by apply list_elem_of_lookup_2 in Hd0|].
    cbn [dicts σ1] in Hd.
    rewrite (with_ranks_rank _ _ i (1 + Z.of_nat i) c) in Hd.
    + cbn [dicts σb] in Hd. rewrite Hcd0 in Hd. simpl in Hd. injection Hd as <-.
      do 2 f_equal. lia.
    + by rewrite enumerate_snd, ranking_Permutation.
    + by rewrite enumerate_lookup, Hc.
Qed.

(** X14: whenever the endpoint answers, it answers either with status 400,
    and then there was no valid file, or with status 200 and a leaderboard
    that has one entry for each valid file, the entry at position [i]
    (from 0) holding rank [i + 1] and a name that is not empty, the total
    being the number of entries. *)
Theorem leaderboard_answer {arith : float_arithmetic} {S : Type} (E : env S)
    (s s' : S) (req : request) (answer : response) :
  run E (leaderboard req) s = (Ok answer, s') ->
  (valid_files_of (files req) = [] /\ status answer = 400)
  \/ (exists (entries : list dict) (summary : value),
        answer
        = Response 200
            (VDict {[ "status" := VStr "success";
                      "domain" := VStr (strip (default "Software Engineering"
                                                       (domain_field req)));
                      "total_candidates" := VInt (Z.of_nat (length entries));
                      "summary" := summary;
                      "leaderboard" := VList (VDict <$> entries) ]})
        /\ length entries = length (valid_files_of (files req))
        /\ valid_files_of (files req) ≠ []
        /\ (forall (i : nat) (d : dict),
              entries !! i = Some d ->
              d !! "rank" = Some (VInt (Z.of_nat i + 1))
              /\ exists name : string, d !! "name" = Some (VStr name) /\ name ≠ "")).
Proof.
  unfold leaderboard. cbv zeta.
  destruct (process_files_named E (names req)
              (strip (default "Software Engineering" (domain_field req)))
              (valid_files_of (files req)) 0 s (valid_files_truthy (files req)))
    as (records & s1 & Hrun & Hlen & Hrecords).
  destruct (valid_files_of (files req)) as [|f fs] eqn:Hvalid; cbn [truthy_list negb].
  - intros [= <- _]. by left.
  - rewrite run_bind, Hrun, run_bind, run_of_result.
    destruct (rank_and_summarise records) as [[ranked summary]|e] eqn:Hrank; [|done].
    cbn [run mret prog_ret]. intros [= <- _]. right.
    apply rank_and_summarise_ok in Hrank as [Hlen' Hranked].
    exists ranked, summary. split; [done|]. split; [congruence|]. split; [done|].
    intros i d Hi. destruct (Hranked i d Hi) as (d0 & Hd0 & ->).
    split; [apply lookup_insert_eq|].
    apply list_elem_of_lookup in Hd0 as [j Hj].
    destruct (Hrecords j d0 Hj) as (f' & name & _ & _ & Hname & Hne).
    exists name. split; [|done]. by rewrite lookup_insert_ne.
Qed.

Lemma leaderboard_answer_witness :
  (valid_files_of (files sample_request) = []
   /\ status (default (Response 0 VNone)
               (match (run sample_env (leaderboard (arith := exact_arithmetic) sample_request) 0%nat).1 with
                | Ok a => Some a
                | Raise _ => None
                end)) = 400)
  \/ (exists (entries : list dict) (summary : value),
        default (Response 0 VNone)
          (match (run sample_env (leaderboard (arith := exact_arithmetic) sample_request) 0%nat).1 with
           | Ok a => Some a
           | Raise _ => None
           end)
        = Response 200
            (VDict {[ "status" := VStr "success";
                      "domain" := VStr (strip (default "Software Engineering"
                                                       (domain_field sample_request)));
                      "total_candidates" := VInt (Z.of_nat (length entries));
                      "summary" := summary;
                      "leaderboard" := VList (VDict <$> entries) ]})
        /\ length entries = length (valid_files_of (files sample_request))
        /\ valid_files_of (files sample_request) ≠ []
        /\ (forall (i : nat) (d : dict),
              entries !! i = Some d ->
              d !! "rank" = Some (VInt (Z.of_nat i + 1))
              /\ exists name : string, d !! "name" = Some (VStr name) /\ name ≠ "")).
Proof.
  apply (leaderboard_answer (arith := exact_arithmetic) sample_env 0%nat
           (run sample_env (leaderboard (arith := exact_arithmetic) sample_request) 0%nat).2 sample_request).
  vm_compute. reflexivity.
Defined.

(** * The other endpoints *)

(** X15: the single-resume endpoint answers with status 200 and the name,
    the domain, the score, the metrics, the skills and the note as soon as
    every collaborator answers and the scoring holds the score: unlike the
    batch processor it takes an empty text as it is and reads neither the
    weighted sum nor the number of skills. *)
Theorem candidate_analyse_success {S : Type} (E : env S)
    (s s1 s2 s3 s4 s5 s6 : S) (req : candidate_request)
    (raw structured skills metrics scoring score note : value) :
  E (pdf_extract (resume req)) s = (Ok raw, s1) ->
  E (list_to_json raw) s1 = (Ok structured, s2) ->
  E (extract_skill_from_resume structured) s2 = (Ok skills, s3) ->
  E (generate_analysis_metrics skills) s3 = (Ok metrics, s4) ->
  E (calculate_skill_strength metrics) s4 = (Ok scoring, s5) ->
  subscript scoring "skill_strength_score" = Ok score ->
  E (get_recruiter_note (default "Candidate" (name_field req))
       (default "Software Engineering" (candidate_domain_field req)) skills score) s5
  = (Ok note, s6) ->
  run E (candidate_analyse req) s
  = (Ok (Response 200
           (VDict {[ "name" := VStr (default "Candidate" (name_field req));
                     "domain" := VStr (default "Software Engineering"
                                               (candidate_domain_field req));
                     "score" := score;
                     "metrics" := metrics;
                     "skills" := skills;
                     "recruiter_note" := note ]})), s6).
Proof.
  intros E1 E2 E3 E4 E5 Hscore E6. unfold candidate_analyse. cbv zeta.
  rewrite run_bind, run_invoke, E1, run_bind, run_invoke, E2.
  rewrite run_bind, run_invoke, E3, run_bind, run_invoke, E4.
  rewrite run_bind, run_invoke, E5, run_bind, run_of_result, Hscore.
  by rewrite run_bind, run_invoke, E6, run_bind, run_of_result.
Qed.

Lemma candidate_analyse_success_witness :
  run sample_env (candidate_analyse (CandidateRequest (FileStorage None "") None None)) 0%nat
  = (Ok (Response 200
           (VDict {[ "name" := VStr "Candidate";
                     "domain" := VStr "Software Engineering";
                     "score" := VFloat 15;
                     "metrics" := VDict {[ "total_strong_skills" := VInt 1 ]};
                     "skills" := VDict {[ "languages" := VList [VStr "python"] ]};
                     "recruiter_note" := VStr "A note on Candidate" ]})), 1%nat).
Proof.
  apply (candidate_analyse_success sample_env 0%nat 0%nat 0%nat 0%nat 0%nat 0%nat 1%nat
           (CandidateRequest (FileStorage None "") None None)
           (VStr "") (VList [VStr ""])
           (VDict {[ "languages" := VList [VStr "python"] ]})
           (VDict {[ "total_strong_skills" := VInt 1 ]})
           (VDict {[ "skill_strength_score" := VFloat 15;
                     "weighted_sum" := VFloat (3 # 2);
                     "net_skills" := VInt 1 ]}));
    reflexivity.
Defined.

(** Closes the case of a trace given in full whose raising call, if any,
    is the one the run ends with. *)
Ltac escape_case :=
  let i := fresh "i" in
  let Hi := fresh "Hi" in
  simpl; intros i ? ? Hi;
  repeat (first [done | destruct i as [|i]; simpl in Hi]);
  simplify_eq; by eexists.

(** X16: the single-resume endpoint hands on every exception: when a
    collaborator raises, the endpoint raises the same exception and builds
    no answer. *)
Theorem candidate_analyse_raises {S : Type} (E : env S) (s : S)
    (req : candidate_request) (i : nat) (c : call) (e : exn) :
  calls E (candidate_analyse req) s !! i = Some (c, Raise e) ->
  exists s' : S, run E (candidate_analyse req) s = (Raise e, s').
Proof.
  revert i c e. unfold candidate_analyse. cbv zeta.
  rewrite calls_bind, run_bind, run_invoke, calls_invoke.
  destruct (E (pdf_extract (resume req)) s) as [[raw|e1] s1]; cbn [fst];
    [|escape_case].
  rewrite calls_bind, run_bind, run_invoke, calls_invoke.
  destruct (E (list_to_json raw) s1) as [[structured|e2] s2]; cbn [fst];
    [|escape_case].
  rewrite calls_bind, run_bind, run_invoke, calls_invoke.
  destruct (E (extract_skill_from_resume structured) s2) as [[skills|e3] s3];
    cbn [fst]; [|escape_case].
  rewrite calls_bind, run_bind, run_invoke, calls_invoke.
  destruct (E (generate_analysis_metrics skills) s3) as [[metrics|e4] s4];
    cbn [fst]; [|escape_case].
  rewrite calls_bind, run_bind, run_invoke, calls_invoke.
  destruct (E (calculate_skill_strength metrics) s4) as [[scoring|e5] s5];
    cbn [fst]; [|escape_case].
  rewrite calls_bind, run_bind, run_of_result, calls_of_result.
  destruct (subscript scoring "skill_strength_score") as [score|e6]; [|escape_case].
  rewrite calls_bind, run_bind, run_invoke, calls_invoke.
  destruct (E (get_recruiter_note _ _ skills score) s5) as [[note|e7] s6];
    cbn [fst]; [|escape_case].
  rewrite calls_bind, run_bind, run_of_result, calls_of_result.
  escape_case.
Qed.

Lemma candidate_analyse_raises_witness :
  exists s' : nat,
    run sample_env
        (candidate_analyse (CandidateRequest (FileStorage (Some "e.pdf") "%PDF")
                                             (Some "Eve") None)) 0%nat
    = (Raise (Exn "RuntimeError" "quota exceeded"), s').
Proof.
  apply (candidate_analyse_raises sample_env 0%nat
           (CandidateRequest (FileStorage (Some "e.pdf") "%PDF") (Some "Eve") None)
           5%nat
           (get_recruiter_note "Eve" "Software Engineering"
              (VDict {[ "languages" := VList [VStr "python"] ]}) (VFloat 15))).
  reflexivity.
Defined.

(** X17: the recruiter-note endpoint answers 400 to a body that is missing,
    is not JSON or is empty (the empty object included) and raises an
    [AttributeError] on any other body that is no object, in both cases
    without asking the note generator; on an object it asks the generator
    once, with "Candidate", "Software Engineering", no skills and 0.0 in
    place of what the body lacks, unless the score cannot be made a float,
    and answers 200 with the note or raises what the generator raises. *)
Theorem recruiter_note_endpoint_cases (float_of_str : string -> result Q)
    (float_of_int : Z -> result Q)
    (recruiter_note : value -> value -> value -> Q -> result value) (body : value) :
  (truthy body = false ->
   recruiter_note_endpoint float_of_str float_of_int recruiter_note body
   = Ok (Response 400 (VDict {[ "error" := VStr "Missing or invalid JSON body." ]})))
  /\ (truthy body = true -> (forall d : dict, body ≠ VDict d) ->
      recruiter_note_endpoint float_of_str float_of_int recruiter_note body
      = Raise (AttributeError body "get"))
  /\ (forall d : dict, body = VDict d -> truthy body = true ->
      recruiter_note_endpoint float_of_str float_of_int recruiter_note body
      = match float float_of_str float_of_int (get d "score" (VFloat 0)) with
        | Raise e => Raise e
        | Ok score =>
            match recruiter_note (get d "name" (VStr "Candidate"))
                    (get d "domain" (VStr "Software Engineering"))
                    (get d "skills" (VDict ∅)) score with
            | Ok note => Ok (Response 200 (VDict {[ "recruiter_note" := note ]}))
            | Raise e => Raise e
            end
        end)
  /\ recruiter_note_endpoint float_of_str float_of_int recruiter_note (VDict ∅)
     = Ok (Response 400 (VDict {[ "error" := VStr "Missing or invalid JSON body." ]})).
Proof.
  unfold recruiter_note_endpoint. split; [|split; [|split]].
  - by intros ->.
  - intros -> Hbody. destruct body; try done. by destruct (Hbody d).
  - intros d -> ->. cbn [negb get_attr mbind result_bind].
    destruct (float float_of_str float_of_int (get d "score" (VFloat 0))) as [score|e]; [|done].
    cbn [mbind result_bind]. by destruct (recruiter_note _ _ _ score).
  - done.
Qed.

(** X18: the roadmap endpoint raises a [KeyError] for the first of name,
    domain, skills and score that the body lacks, without asking the
    roadmap generator; with all four it asks the generator once and answers
    200 with what the generator returns or raises what it raises. *)
Theorem candidate_suggest_cases
    (candidate_roadmap : value -> value -> value -> value -> result value)
    (data : dict) :
  (data !! "name" = None -> candidate_suggest candidate_roadmap data = Raise (KeyError "name"))
  /\ (is_Some (data !! "name") -> data !! "domain" = None ->
      candidate_suggest candidate_roadmap data = Raise (KeyError "domain"))
  /\ (is_Some (data !! "name") -> is_Some (data !! "domain") -> data !! "skills" = None ->
      candidate_suggest candidate_roadmap data = Raise (KeyError "skills"))
  /\ (is_Some (data !! "name") -> is_Some (data !! "domain") ->
      is_Some (data !! "skills") -> data !! "score" = None ->
      candidate_suggest candidate_roadmap data = Raise (KeyError "score"))
  /\ (forall name domain skills score : value,
        data !! "name" = Some name -> data !! "domain" = Some domain ->
        data !! "skills" = Some skills -> data !! "score" = Some score ->
        candidate_suggest candidate_roadmap data
        = match candidate_roadmap name domain skills score with
          | Ok ai_roadmap => Ok (Response 200 ai_roadmap)
          | Raise e => Raise e
          end).
Proof.
  unfold candidate_suggest, subscript. repeat split.
  - by intros ->.
  - by intros [? ->] ->.
  - by intros [? ->] [? ->] ->.
  - by intros [? ->] [? ->] [? ->] ->.
  - intros name domain skills score -> -> -> ->. cbn [mbind result_bind].
    by destruct (candidate_roadmap name domain skills score).
Qed.

(** * Records listed more than once *)

Lemma with_ranks_snoc (m : gmap ref (gmap string value)) (items : list (Z * ref))
    (z : Z) (c : ref) :
  with_ranks m (items ++ [(z, c)]) = alter (insert "rank" (VInt z)) c (with_ranks m items).
Proof. unfold with_ranks. by rewrite foldl_app. Qed.

Lemma insert_rank_frame (d d' : dict) (z : Z) :
  (forall k : string, k ≠ "rank" -> d' !! k = d !! k) ->
  <["rank" := VInt z]> d' = <["rank" := VInt z]> d.
Proof.
  intros H. apply map_eq. intros k. destruct (decide (k = "rank")) as [->|Hk].
  - by rewrite !lookup_insert_eq.
  - rewrite !lookup_insert_ne by done. by apply H.
Qed.

Lemma with_ranks_last (m : gmap ref (gmap string value)) (items : list (Z * ref))
    (i : nat) (z : Z) (c : ref) :
  items !! i = Some (z, c) ->
  (forall (j : nat) (z' : Z), (i < j)%nat -> items !! j ≠ Some (z', c)) ->
  with_ranks m items !! c = insert "rank" (VInt z) <$> m !! c.
Proof.
  revert i. induction items as [|[z0 c0] items IH] using rev_ind; intros i Hi Hlast; [done|].
  rewrite with_ranks_snoc.
  destruct (decide (i < length items)%nat) as [Hlt|Hge].
  - rewrite lookup_app_l in Hi by done.
    assert (c0 ≠ c) as Hne.
    { intros ->. apply (Hlast (length items) z0 Hlt).
      by rewrite lookup_app_r, Nat.sub_diag. }
    rewrite lookup_alter_ne by done. apply (IH i Hi).
    intros j z' Hij Hj. apply (Hlast j z' Hij).
    apply lookup_lt_Some in Hj as Hjlen. by rewrite lookup_app_l.
  - assert (i = length items) as ->.
    { apply lookup_lt_Some in Hi. rewrite length_app in Hi. simpl in Hi. lia. }
    rewrite lookup_app_r, Nat.sub_diag in Hi by done. injection Hi as -> ->.
    rewrite lookup_alter_eq.
    pose proof (with_ranks_alloc m items c) as Halloc.
    destruct (with_ranks m items !! c) as [d'|] eqn:Hd'; destruct (m !! c) as [d|] eqn:Hd;
      simpl; try done.
    + f_equal. apply insert_rank_frame. intros k Hk.
      pose proof (with_ranks_field m items c k Hk) as E. by rewrite Hd', Hd in E.
    + by destruct (proj1 Halloc ltac:(by eexists)).
    + by destruct (proj2 Halloc ltac:(by eexists)).
Qed.

(** X19: whether or not a record is listed more than once, its rank after
    the ranking is the number of its last position in the returned list. *)
Theorem rank_is_last_position (σ : store) (r : ref) (cs : list ref) :
  lists σ !! r = Some cs -> candidates_ok σ cs ->
  exists (r' : ref) (σ' : store) (ranked : list ref),
    get_domain_leaderboard r σ = (Ok r', σ')
    /\ lists σ' !! r' = Some ranked
    /\ (forall (i : nat) (c : ref),
          ranked !! i = Some c ->
          (forall j : nat, (i < j)%nat -> ranked !! j ≠ Some c) ->
          rank_of σ' c = Some (VInt (Z.of_nat i + 1))).
Proof.
  intros Hr Hcs. eexists _, _, (ranking σ cs).
  split; [by apply get_domain_leaderboard_run|].
  split; [cbn [lists]; apply lookup_insert_eq|].
  intros i c Hi Hlast. unfold rank_of, field. cbn [dicts].
  rewrite (with_ranks_last _ _ i (1 + Z.of_nat i) c).
  - assert (c ∈ cs) as Hc.
    { rewrite <- (ranking_Permutation σ cs). by apply list_elem_of_lookup_2 in Hi. }
    unfold candidates_ok in Hcs. rewrite Forall_forall in Hcs.
    destruct (Hcs c Hc) as (d & -> & _). simpl.
    rewrite lookup_insert_eq. do 2 f_equal. lia.
  - by rewrite enumerate_lookup, Hi.
  - intros j z' Hij. rewrite enumerate_lookup.
    destruct (ranking σ cs !! j) as [c'|] eqn:Hj; simpl; [|done].
    intros [= _ ->]. by apply (Hlast j Hij).
Qed.

Lemma rank_is_last_position_witness :
  exists (r' : ref) (σ' : store) (ranked : list ref),
    get_domain_leaderboard 0%nat aliased = (Ok r', σ')
    /\ lists σ' !! r' = Some ranked
    /\ (forall (i : nat) (c : ref),
          ranked !! i = Some c ->
          (forall j : nat, (i < j)%nat -> ranked !! j ≠ Some c) ->
          rank_of σ' c = Some (VInt (Z.of_nat i + 1))).
Proof.
  apply (rank_is_last_position aliased 0%nat [0; 0]%nat).
  - reflexivity.
  - unfold candidates_ok. repeat constructor;
      (eexists; split; [reflexivity | split; eexists; reflexivity]).
Defined.

(** * Failures do not stop the batch *)

Lemma failure_record_ok (candidate_name : string) (e : exn) :
  sortable (failure_record candidate_name e)
  /\ summarisable (failure_record candidate_name e).
Proof.
  split; [split; eexists; reflexivity|].
  split; [eexists; reflexivity|].
  exists ∅. split; [reflexivity|]. intros tier _. by exists 0.
Qed.

Lemma process_record_ok {S} (E : env S) (s : S) (file : file_storage)
    (candidate_name domain : string) :
  well_typed E ->
  exists (d : dict) (s' : S),
    run E (_process_single_resume file candidate_name domain) s = (Ok d, s')
    /\ sortable d /\ summarisable d.
Proof.
  intros [Hmetrics Hscore]. unfold _process_single_resume. rewrite run_try_except.
  assert (forall e s', exists (d : dict) (s'' : S),
            run E (Ret (failure_record candidate_name e)) s' = (Ok d, s'')
            /\ sortable d /\ summarisable d) as Hfail.
  { intros e s'. eexists _, _. split; [reflexivity|]. apply failure_record_ok. }
  unfold process_steps. rewrite run_bind, run_invoke.
  destruct (E (pdf_extract file) s) as [[raw|?] s1]; [|apply Hfail].
  destruct (truthy raw); cbn [negb]; [|apply Hfail].
  rewrite run_bind, run_invoke.
  destruct (E (list_to_json raw) s1) as [[structured|?] s2]; [|apply Hfail].
  rewrite run_bind, run_invoke.
  destruct (E (extract_skill_from_resume structured) s2) as [[skills|?] s3];
    [|apply Hfail].
  rewrite run_bind, run_invoke.
  destruct (E (generate_analysis_metrics skills) s3) as [[metrics|?] s4] eqn:E4;
    [|apply Hfail].
  rewrite run_bind, run_invoke.
  destruct (E (calculate_skill_strength metrics) s4) as [[scoring|?] s5] eqn:E5;
    [|apply Hfail].
  rewrite run_bind, run_of_result.
  destruct (subscript scoring "skill_strength_score") as [score|?] eqn:E6; [|apply Hfail].
  rewrite run_bind, run_invoke.
  destruct (E (get_recruiter_note candidate_name domain skills score) s5)
    as [[note|?] s6]; [|apply Hfail].
  rewrite run_bind, run_of_result.
  destruct (subscript scoring "weighted_sum") as [weighted_sum|?]; [|apply Hfail].
  rewrite run_bind, run_of_result.
  destruct (subscript scoring "net_skills") as [net_skills|?]; [|apply Hfail].
  eexists _, _. split; [reflexivity|].
  destruct (Hscore _ _ _ _ _ E5 E6) as [q Hq].
  destruct (Hmetrics _ _ _ _ E4) as (m & -> & Htiers).
  split; [split|split].
  - by exists q.
  - by eexists.
  - by exists q.
  - by exists m.
Qed.

Lemma process_files_ok {S} (E : env S) (names : list string) (domain : string)
    (fs : list file_storage) (i : nat) (s : S) :
  well_typed E -> Forall (fun f => file_truthy f = true) fs ->
  exists (records : list dict) (s' : S),
    run E (process_files names domain i fs) s = (Ok records, s')
    /\ Forall sortable records /\ Forall summarisable records.
Proof.
  intros HE Hfs. revert i s. induction Hfs as [|f fs Hf _ IH]; intros i s.
  - exists [], s. by repeat split.
  - destruct (candidate_name_of_valid names i f Hf) as (name & Hname & _).
    destruct (process_record_ok E s f name domain HE) as (d & s1 & Hrun & Hd1 & Hd2).
    destruct (IH (Datatypes.S i) s1) as (records & s2 & Hrest & H1 & H2).
    exists (d :: records), s2. cbn [process_files].
    rewrite run_bind, run_of_result, Hname, run_bind, Hrun, run_bind, Hrest.
    split; [done|]. split; by constructor.
Qed.

Lemma summary_total {arith : float_arithmetic} (σ : store) (r : ref) (cs : list ref)
    (avg : value) :
  lists σ !! r = Some cs -> summary_ok σ cs -> average (scores_of σ cs) = Ok avg ->
  exists v : value, build_leaderboard_summary r σ = (Ok v, σ).
Proof.
  intros Hr Hok Havg. destruct cs as [|c cs].
  - eexists. unfold build_leaderboard_summary.
    by rewrite M_bind_run, (load_list_run σ r _ Hr).
  - eexists. by apply (summary_run σ r c cs avg).
Qed.

(** Records that can be ranked and summarised are, as soon as the average
    of their scores, taken in ranked order, can be computed. *)
Lemma rank_and_summarise_total {arith : float_arithmetic} (records : list dict) :
  Forall sortable records -> Forall summarisable records ->
  exists scores : list value,
    scores ≡ₚ (fun d => get d "score" (VFloat 0)) <$> records
    /\ forall avg : value,
         average scores = Ok avg ->
         exists (ranked : list dict) (summary : value),
           rank_and_summarise records = Ok (ranked, summary).
Proof.
  intros Hsort Hsum. unfold rank_and_summarise.
  destruct (new_dicts_run records Heap.empty)
    as (cs & σa & Hnew & Hlists & Hnd & _ & Hall & _).
  rewrite M_bind_run, Hnew, M_bind_run. unfold new_list at 1. cbv zeta.
  set (r := fresh (dom (lists σa))).
  set (σb := Store (dicts σa) (<[r := cs]> (lists σa))).
  assert (lists σb !! r = Some cs) as Hr by (cbn [lists σb]; apply lookup_insert_eq).
  assert (candidates_ok σb cs /\ summary_ok σb cs) as [Hok Hok'].
  { clear -Hall Hsort Hsum. unfold candidates_ok, summary_ok. cbn [dicts σb].
    induction Hall as [|c d cs records Hc _ IH]; [by split|].
    apply Forall_cons in Hsort as [Hd Hsort]. apply Forall_cons in Hsum as [Hd' Hsum].
    destruct (IH Hsort Hsum) as [IH1 IH2]. split; constructor; try done; by exists d. }
  rewrite M_bind_run, (get_domain_leaderboard_run σb r cs Hr Hok).
  set (r1 := fresh (dom (lists σb))).
  set (σ1 := Store (with_ranks (dicts σb) (enumerate (ranking σb cs) 1))
                   (<[r1 := ranking σb cs]> (lists σb))).
  assert (lists σ1 !! r1 = Some (ranking σb cs)) as Hr1
    by (cbn [lists σ1]; apply lookup_insert_eq).
  assert (summary_ok σ1 (ranking σb cs)) as Hok1.
  { apply ranked_store_summary_ok.
    by apply (Forall_Permutation_ok σb cs); [symmetry; apply ranking_Permutation|]. }
  exists (scores_of σ1 (ranking σb cs)). split.
  - rewrite (scores_frame σb σ1) by (intros c k Hk; by apply ranked_store_field).
    rewrite (scores_read σb cs records Hall).
    unfold scores_of. apply fmap_Permutation, ranking_Permutation.
  - intros avg Havg.
    destruct (summary_total σ1 r1 _ avg Hr1 Hok1 Havg) as [summary Hsummary].
    rewrite M_bind_run, Hsummary, M_bind_run, (load_list_run σ1 r1 _ Hr1).
    assert (Forall (fun c => is_Some (dicts σ1 !! c)) (ranking σb cs)) as Halloc1.
    { eapply Forall_impl; [exact Hok1|]. intros c (d & -> & _). by eexists. }
    destruct (load_all σ1 _ Halloc1) as [ds Hds].
    rewrite M_bind_run, (load_dicts_run σ1 _ ds Hds), M_ret_run. by eexists _, _.
Qed.

(** X20: with collaborators that keep to their types (integer tier counts
    in the metrics, a number as skill strength score), every valid file of
    a request gives a record, whichever collaborator calls fail and for
    however many of the candidates, and the request is answered with status
    200 as soon as the interpreter can compute the average of the records'
    scores (which it cannot for an integer score beyond the range of
    floats). *)
Theorem leaderboard_survives_failures {arith : float_arithmetic} {S : Type}
    (E : env S) (s : S) (req : request) :
  well_typed E -> valid_files_of (files req) ≠ [] ->
  exists (records : list dict) (s' : S) (scores : list value),
    run E (process_files (names req)
             (strip (default "Software Engineering" (domain_field req))) 0
             (valid_files_of (files req))) s = (Ok records, s')
    /\ scores ≡ₚ (fun d => get d "score" (VFloat 0)) <$> records
    /\ forall avg : value,
         average scores = Ok avg ->
         exists answer : response,
           run E (leaderboard req) s = (Ok answer, s') /\ status answer = 200.
Proof.
  intros HE Hvalid. unfold leaderboard. cbv zeta.
  destruct (process_files_ok E (names req)
              (strip (default "Software Engineering" (domain_field req)))
              (valid_files_of (files req)) 0 s HE (valid_files_truthy (files req)))
    as (records & s1 & Hrun & Hsort & Hsum).
  destruct (rank_and_summarise_total records Hsort Hsum) as (scores & Hscores & Hrank).
  exists records, s1, scores. split; [done|]. split; [done|].
  intros avg Havg. destruct (Hrank avg Havg) as (ranked & summary & Hranked).
  destruct (valid_files_of (files req)) as [|f fs]; [done|]. cbn [truthy_list negb].
  eexists. rewrite run_bind, Hrun, run_bind, run_of_result, Hranked.
  split; reflexivity.
Qed.

Lemma sample_env_well_typed : well_typed sample_env.
Proof.
  split.
  - intros skills v s s' [= <- _]. eexists. split; [reflexivity|].
    intros tier Ht.
    repeat (apply elem_of_cons in Ht as [->|Ht]; [eexists; reflexivity|]).
    by apply elem_of_nil in Ht.
  - intros metrics v score s s' [= <- _] [= <-]. by eexists.
Qed.

Lemma leaderboard_survives_failures_witness :
  exists (records : list dict) (s' : nat) (scores : list value),
    run sample_env
        (process_files (names sample_request)
           (strip (default "Software Engineering" (domain_field sample_request))) 0
           (valid_files_of (files sample_request))) 0%nat = (Ok records, s')
    /\ scores ≡ₚ (fun d => get d "score" (VFloat 0)) <$> records
    /\ forall avg : value,
         average (arith := exact_arithmetic) scores = Ok avg ->
         exists answer : response,
           run sample_env (leaderboard (arith := exact_arithmetic) sample_request) 0%nat
           = (Ok answer, s')
           /\ status answer = 200.
Proof.
  apply (leaderboard_survives_failures (arith := exact_arithmetic)
           sample_env 0%nat sample_request).
  - apply sample_env_well_typed.
  - discriminate.
Defined.

(** * Metrics that are no dict *)

Lemma count_raise {arith : float_arithmetic} (e : exn) (ds : list dict) :
  foldl (fun acc c => dist ← acc; count_tiers dist c) (Raise e) ds = Raise e.
Proof. induction ds as [|d ds IH]; [done | apply IH]. Qed.

(** X21: the default for missing metrics does not stand in for metrics
    that are there but are no dict, [None] for one: once the average is
    computed, the summary raises an [AttributeError] on the first such
    record, and it changes nothing. *)
Theorem summary_rejects_metrics_that_are_no_dict {arith : float_arithmetic}
    (σ : store) (r c : ref) (before after : list ref) (d : dict) (v avg : value) :
  lists σ !! r = Some (before ++ c :: after) ->
  summary_ok σ before -> Forall (allocated σ) after ->
  average (scores_of σ (before ++ c :: after)) = Ok avg ->
  dicts σ !! c = Some d -> d !! "metrics" = Some v -> (forall m : dict, v ≠ VDict m) ->
  build_leaderboard_summary r σ = (Raise (AttributeError v "get"), σ).
Proof.
  intros Hr Hbefore Hafter Havg Hd Hv Hno.
  assert (Forall (fun c => is_Some (dicts σ !! c)) (before ++ c :: after)) as Halloc.
  { apply Forall_app. split; [|by constructor].
    eapply Forall_impl; [exact Hbefore|]. intros c' (d' & -> & _). by eexists. }
  destruct (load_all σ _ Halloc) as [ds Hds].
  apply Forall2_app_inv_l in Hds as Hsplit.
  destruct Hsplit as (ds1 & ds2 & Hds1 & Hds2 & ->).
  inversion Hds2 as [|? d' ? ds3 Hd' _]; subst.
  rewrite Hd in Hd'. injection Hd' as <-.
  assert (Forall2 (fun c d => dicts σ !! c = Some d /\ summarisable d) before ds1) as Hok1.
  { clear -Hds1 Hbefore. induction Hds1 as [|c1 d1 cs1 ds1 Hc1 _ IH]; [constructor|].
    apply Forall_cons in Hbefore as [(d0 & Hd0 & Hs) Hbefore].
    constructor; [|by apply IH]. rewrite Hc1 in Hd0. by injection Hd0 as <-. }
  unfold build_leaderboard_summary.
  rewrite M_bind_run, (load_list_run σ r _ Hr).
  assert (truthy_list (before ++ c :: after) = true) as -> by (by destruct before).
  cbn [negb]. rewrite M_bind_run, (load_dicts_run σ _ _ Hds). cbv zeta.
  rewrite (scores_read σ _ _ Hds).
  unfold average in Havg.
  rewrite M_bind_run. unfold lift at 1.
  destruct (sum (scores_of σ (before ++ c :: after))) as [total|e]; [|done].
  cbn [mbind result_bind] in Havg.
  rewrite M_bind_run. unfold lift at 1.
  destruct (truediv total _) as [mean|e]; [|done].
  cbn [mbind result_bind] in Havg.
  rewrite M_bind_run. unfold lift at 1. rewrite Havg.
  rewrite M_bind_run. unfold lift at 1.
  fold (tiers 0 0 0). rewrite foldl_app, (count_all σ before ds1 0 0 0 Hok1).
  cbn [foldl mbind result_bind]. unfold count_tiers at 2, get. rewrite Hv.
  assert (get_attr v "total_strong_skills" (VInt 0) = Raise (AttributeError v "get")) as ->.
  { destruct v; try done. by destruct (Hno d0). }
  cbn [mbind result_bind]. by rewrite count_raise.
Qed.

Lemma summary_rejects_metrics_that_are_no_dict_witness :
  build_leaderboard_summary (arith := exact_arithmetic) 0%nat null_metrics
  = (Raise (AttributeError VNone "get"), null_metrics).
Proof.
  apply (summary_rejects_metrics_that_are_no_dict (arith := exact_arithmetic)
           null_metrics 0%nat 1%nat [0%nat] [2%nat]
           {[ "name" := VStr "Bo"; "score" := VFloat 3; "metrics" := VNone ]} VNone
           (VFloat (26667 # 10000))).
  - reflexivity.
  - unfold summary_ok. repeat constructor.
    eexists. split; [reflexivity|]. split; [eexists; reflexivity|].
    exists ∅. split; [reflexivity|]. intros tier _. by exists 0.
  - repeat constructor. by eexists.
  - reflexivity.
  - reflexivity.
  - reflexivity.
  - discriminate.
Defined.
